(** * model-showdown: the showdown pipeline (src/pipeline.ts, src/types.ts)

    A shallow embedding of the pipeline
      delegate_to_model -> create_expert -> execute_expert -> consensus_vote (per strategy)
    and of its helpers [buildProposal], [toStrategyResult], [computeAgreement]
    and [inferExpertRole].

    Modelling conventions.
    - A JS string is a [string]: a sequence of code units; the model covers
      the code units 0..255 (Latin-1), on which [toLowerCase] is written out.
    - A JS number that the pipeline only carries around (scores, confidence,
      percentages, durations) is a [number]: zero, or the sign and the shortest
      round-trip decimal (digits [s], exponent [n]) ECMAScript's
      Number::toString is defined on.  The one number the pipeline computes,
      the agreement ratio, is kept as the exact rational in [Q]; the double JS
      returns is the nearest one to it.
    - An [unknown] gateway result is a [Json] value.
    - Record fields keep the source's names; where two records share a
      field name the field carries its record's prefix ([ce_role] of the
      creation response, [vr_strategy] of the vote response, ...).
    - The gateway is a state machine [call]; awaiting a call is running it.
      A call that never settles is outside of the model. *)

From Stdlib Require Import List String Ascii Bool Arith ZArith QArith Lia.
From Stdlib Require Import DecimalString Permutation.
Import ListNotations.
Set Warnings "-register-all,-notation-for-abbreviation".
Close Scope Q_scope.
Open Scope nat_scope.
Open Scope list_scope.
Open Scope string_scope.

(* ------------------------------------------------------------------------- *)
(** ** Strings *)

Module JsString.

(** [s.length] is [String.length s]; [a + b] is [a ++ b]. *)

(** [s.slice(0, n)] for [0 <= n]. *)
Definition slice0 (n : nat) (s : string) : string := substring 0 n s.

(** [s.startsWith(p)]. *)
Fixpoint startsWith (p s : string) : bool :=
  match p, s with
  | EmptyString, _ => true
  | String _ _, EmptyString => false
  | String a p', String b s' => Ascii.eqb a b && startsWith p' s'
  end.

(** [s.includes(p)]. *)
Fixpoint includes (p s : string) : bool :=
  startsWith p s ||
  match s with
  | EmptyString => false
  | String _ s' => includes p s'
  end.

(** [parts.join(sep)]. *)
Fixpoint join (sep : string) (parts : list string) : string :=
  match parts with
  | [] => EmptyString
  | [x] => x
  | x :: rest => x ++ sep ++ join sep rest
  end.

(** The lower-case mapping of one Latin-1 code unit: A-Z, and the capital
    letters 0xC0-0xDE except the multiplication sign 0xD7. *)
Definition lowerChar (c : ascii) : ascii :=
  let n := nat_of_ascii c in
  if (((65 <=? n) && (n <=? 90)) ||
      ((192 <=? n) && (n <=? 222) && negb (n =? 215)))%nat
  then ascii_of_nat (n + 32) else c.

(** [s.toLowerCase()]. *)
Fixpoint toLowerCase (s : string) : string :=
  match s with
  | EmptyString => EmptyString
  | String c s' => String (lowerChar c) (toLowerCase s')
  end.

(** [c.repeat(n)] for a one-unit string. *)
Fixpoint repeatChar (c : ascii) (n : nat) : string :=
  match n with
  | O => EmptyString
  | S k => String c (repeatChar c k)
  end.

Definition newline : string := String (ascii_of_nat 10) EmptyString.
Definition dquote : string := String (ascii_of_nat 34) EmptyString.

(** JS truthiness of a string, as [Boolean(s)] in [filter(Boolean)]. *)
Definition truthy (s : string) : bool :=
  match s with EmptyString => false | _ => true end.

End JsString.
Import JsString.

(* ------------------------------------------------------------------------- *)
(** ** Numbers *)

Module JsNumber.

(** A finite JS number: zero, or sign, digits [s] and exponent [n] with
    value [s * 10^(n - k)], [k] the number of digits of [s]. *)
Inductive number : Type :=
| Zero
| Finite (negative : bool) (s : positive) (n : Z).

Definition digitsOf (p : positive) : string :=
  NilEmpty.string_of_uint (Pos.to_uint p).

Definition zeros (n : nat) : string := repeatChar "0"%char n.

(** Number::toString(x), radix 10 (ECMA-262, 6.1.6.1.20). *)
Definition numberToString (x : number) : string :=
  match x with
  | Zero => "0"
  | Finite neg s n =>
      let d := digitsOf s in
      let k := Z.of_nat (String.length d) in
      let body :=
        if (k <=? n)%Z && (n <=? 21)%Z then
          d ++ zeros (Z.to_nat (n - k))
        else if (0 <? n)%Z && (n <=? 21)%Z then
          substring 0 (Z.to_nat n) d ++ "." ++
          substring (Z.to_nat n) (Z.to_nat (k - n)) d
        else if (-6 <? n)%Z && (n <=? 0)%Z then
          "0." ++ zeros (Z.to_nat (- n)) ++ d
        else
          let e := (n - 1)%Z in
          let sign := if (e <? 0)%Z then "-" else "+" in
          let mant :=
            match d with
            | String c EmptyString => d
            | String c rest => String c ("." ++ rest)
            | EmptyString => d
            end in
          mant ++ "e" ++ sign ++ digitsOf (Z.to_pos (Z.abs e))
      in
      if neg then "-" ++ body else body
  end.

End JsNumber.
Import JsNumber.

(* ------------------------------------------------------------------------- *)
(** ** Gateway values and the response schemas (src/types.ts) *)

Module Types.

(** A gateway result ([unknown]): the data a JSON transport can carry. *)
Inductive Json : Type :=
| JNull
| JBool (b : bool)
| JNum (x : number)
| JStr (s : string)
| JArr (items : list Json)
| JObj (fields : list (string * Json)).

(** What a failing call or a failing [parse] throws: an [Error] instance
    with its [message], or any other value with its [String(e)]. *)
Inductive Thrown : Type :=
| JsError (message : string)
| JsValue (text : string).

(** [e instanceof Error ? e.message : String(e)]. *)
Definition thrownMessage (e : Thrown) : string :=
  match e with
  | JsError m => m
  | JsValue t => t
  end.

(** [raw[key]]; [None] is [undefined]. *)
Fixpoint getField (key : string) (fields : list (string * Json)) : option Json :=
  match fields with
  | [] => None
  | (k, v) :: rest => if String.eqb k key then Some v else getField key rest
  end.

(** The zod combinators the schemas are built from; [None] is a rejected
    input. *)
Definition zString (v : option Json) : option string :=
  match v with Some (JStr s) => Some s | _ => None end.

Definition zNumber (v : option Json) : option number :=
  match v with Some (JNum x) => Some x | _ => None end.

Definition zBoolean (v : option Json) : option bool :=
  match v with Some (JBool b) => Some b | _ => None end.

Definition zEnum (values : list string) (v : option Json) : option string :=
  match v with
  | Some (JStr s) => if existsb (String.eqb s) values then Some s else None
  | _ => None
  end.

Fixpoint zItems {A : Type} (item : option Json -> option A) (l : list Json)
  : option (list A) :=
  match l with
  | [] => Some []
  | x :: rest =>
      match item (Some x), zItems item rest with
      | Some a, Some r => Some (a :: r)
      | _, _ => None
      end
  end.

Definition zArray {A : Type} (item : option Json -> option A) (v : option Json)
  : option (list A) :=
  match v with Some (JArr l) => zItems item l | _ => None end.

Definition zObject {A : Type} (shape : list (string * Json) -> option A)
  (v : option Json) : option A :=
  match v with Some (JObj fields) => shape fields | _ => None end.

(** [schema.optional()]: [undefined] is accepted and kept. *)
Definition zOptional {A : Type} (inner : option Json -> option A)
  (v : option Json) : option (option A) :=
  match v with
  | None => Some None
  | Some _ => option_map Some (inner v)
  end.

Definition obind {A B : Type} (o : option A) (f : A -> option B) : option B :=
  match o with Some a => f a | None => None end.

Notation "x <-? o ; k" := (obind o (fun x => k))
  (at level 61, o at next level, right associativity).

(** *** delegate_to_model *)

Record Alternative : Type := mkAlternative
  { alt_model : string; alt_score : number; alt_tradeoff : string }.

Record Governance : Type := mkGovernance
  { gov_domain : string; gov_votingThreshold : string;
    gov_promotionReason : string }.

Record Capabilities : Type := mkCapabilities
  { cap_reasoning : number; cap_contextWindow : number;
    cap_codeGeneration : number; cap_speed : number; cap_cost : number }.

Record DelegateResponse : Type := mkDelegateResponse
  { recommended_model : string;
    reasoning : string;
    capabilities : Capabilities;
    estimated_tokens : number;
    alternatives : list Alternative;
    governance : option Governance }.

Definition AlternativeSchema : option Json -> option Alternative :=
  zObject (fun o =>
    m <-? zString (getField "model" o);
    sc <-? zNumber (getField "score" o);
    t <-? zString (getField "tradeoff" o);
    Some (mkAlternative m sc t)).

Definition GovernanceSchema : option Json -> option (option Governance) :=
  zOptional (zObject (fun o =>
    d <-? zString (getField "domain" o);
    v <-? zString (getField "votingThreshold" o);
    r <-? zString (getField "promotionReason" o);
    Some (mkGovernance d v r))).

Definition CapabilitiesSchema : option Json -> option Capabilities :=
  zObject (fun o =>
    r <-? zNumber (getField "reasoning" o);
    w <-? zNumber (getField "contextWindow" o);
    g <-? zNumber (getField "codeGeneration" o);
    sp <-? zNumber (getField "speed" o);
    c <-? zNumber (getField "cost" o);
    Some (mkCapabilities r w g sp c)).

Definition DelegateResponseSchema : option Json -> option DelegateResponse :=
  zObject (fun o =>
    m <-? zString (getField "recommended_model" o);
    r <-? zString (getField "reasoning" o);
    c <-? CapabilitiesSchema (getField "capabilities" o);
    t <-? zNumber (getField "estimated_tokens" o);
    a <-? zArray AlternativeSchema (getField "alternatives" o);
    g <-? GovernanceSchema (getField "governance" o);
    Some (mkDelegateResponse m r c t a g)).

(** *** create_expert *)

Record CreateExpertResponse : Type := mkCreateExpertResponse
  { ce_expertId : string;
    ce_role : string;
    ce_capabilities : list string;
    ce_status : string }.

Definition CreateExpertResponseSchema
  : option Json -> option CreateExpertResponse :=
  zObject (fun o =>
    i <-? zString (getField "expertId" o);
    r <-? zString (getField "role" o);
    c <-? zArray zString (getField "capabilities" o);
    st <-? zString (getField "status" o);
    Some (mkCreateExpertResponse i r c st)).

(** *** execute_expert *)

Record ExecuteExpertResponse : Type := mkExecuteExpertResponse
  { ee_expertId : string;
    output : string;
    confidence : number;
    tokensUsed : number }.

Definition ExecuteExpertResponseSchema
  : option Json -> option ExecuteExpertResponse :=
  zObject (fun o =>
    i <-? zString (getField "expertId" o);
    out <-? zString (getField "output" o);
    c <-? zNumber (getField "confidence" o);
    t <-? zNumber (getField "tokensUsed" o);
    Some (mkExecuteExpertResponse i out c t)).

(** *** consensus_vote *)

Inductive VotingStrategy : Type :=
| simple_majority | supermajority | unanimous | proof_of_learning | higher_order.

Definition strategyName (s : VotingStrategy) : string :=
  match s with
  | simple_majority => "simple_majority"
  | supermajority => "supermajority"
  | unanimous => "unanimous"
  | proof_of_learning => "proof_of_learning"
  | higher_order => "higher_order"
  end.

Definition VOTING_STRATEGIES : list VotingStrategy :=
  [simple_majority; supermajority; unanimous; proof_of_learning; higher_order].

Record VoteCounts : Type := mkVoteCounts
  { approve : number; reject : number; abstain : number; error : number }.

Record AgentVote : Type := mkAgentVote
  { av_role : string; av_decision : string; av_confidence : number;
    av_reasoning : string; av_simulated : bool; av_error : bool }.

Record VoteResponse : Type := mkVoteResponse
  { vr_proposal : string;
    vr_strategy : string;
    vr_decision : string;
    vr_approvalPercentage : number;
    vr_voteCounts : VoteCounts;
    vr_votes : list AgentVote;
    vr_durationMs : number;
    vr_simulateVotes : bool }.

Definition AgentVoteSchema : option Json -> option AgentVote :=
  zObject (fun o =>
    r <-? zString (getField "role" o);
    d <-? zEnum ["approve"; "reject"; "abstain"] (getField "decision" o);
    c <-? zNumber (getField "confidence" o);
    re <-? zString (getField "reasoning" o);
    si <-? zBoolean (getField "simulated" o);
    e <-? zBoolean (getField "error" o);
    Some (mkAgentVote r d c re si e)).

Definition VoteCountsSchema : option Json -> option VoteCounts :=
  zObject (fun o =>
    a <-? zNumber (getField "approve" o);
    r <-? zNumber (getField "reject" o);
    ab <-? zNumber (getField "abstain" o);
    e <-? zNumber (getField "error" o);
    Some (mkVoteCounts a r ab e)).

Definition VoteResponseSchema : option Json -> option VoteResponse :=
  zObject (fun o =>
    p <-? zString (getField "proposal" o);
    s <-? zString (getField "strategy" o);
    d <-? zEnum ["approved"; "rejected"; "pending"; "timeout"]
            (getField "decision" o);
    ap <-? zNumber (getField "approvalPercentage" o);
    vc <-? VoteCountsSchema (getField "voteCounts" o);
    vs <-? zArray AgentVoteSchema (getField "votes" o);
    du <-? zNumber (getField "durationMs" o);
    si <-? zBoolean (getField "simulateVotes" o);
    Some (mkVoteResponse p s d ap vc vs du si)).

(** *** Pipeline types *)

Record AlternativeSummary : Type := mkAlternativeSummary
  { as_model : string; as_score : number }.

Record ModelEvaluation : Type := mkModelEvaluation
  { ev_task : string;
    recommendedModel : string;
    ev_reasoning : string;
    ev_alternatives : list AlternativeSummary;
    expertRole : string;
    expertOutput : string;
    expertConfidence : number }.

(** [strategy] is whatever string the vote response carried: the cast
    [vote.strategy as VotingStrategy] checks nothing at run time. *)
Record StrategyResult : Type := mkStrategyResult
  { strategy : string;
    decision : string;
    approvalPercentage : number;
    voteCounts : VoteCounts;
    durationMs : number }.

Record ShowdownResult : Type := mkShowdownResult
  { evaluation : ModelEvaluation;
    strategyResults : list StrategyResult;
    strategyAgreement : Q;
    errors : list string }.

Inductive Capability : Type :=
| cap_is_reasoning | cap_is_context | cap_is_speed | cap_is_code.

Definition capabilityName (c : Capability) : string :=
  match c with
  | cap_is_reasoning => "reasoning"
  | cap_is_context => "context"
  | cap_is_speed => "speed"
  | cap_is_code => "code"
  end.

Record ShowdownConfig : Type := mkShowdownConfig
  { task : string;
    preferredCapability : option Capability;
    cfg_expertRole : option string;
    strategies : option (list VotingStrategy) }.

End Types.
Import Types.

(* ------------------------------------------------------------------------- *)
(** ** Helpers (src/pipeline.ts) *)

Definition alternativeText (a : Alternative) : string :=
  alt_model a ++ " (score: " ++ numberToString (alt_score a) ++ ")".

Definition buildProposal (delegation : DelegateResponse)
  (expertResult : ExecuteExpertResponse) : string :=
  let alternatives :=
    join ", " (map alternativeText (Types.alternatives delegation)) in
  join newline
    (filter truthy
       [ "Model recommendation: " ++ recommended_model delegation;
         "Reasoning: " ++ reasoning delegation;
         if truthy alternatives then "Alternatives: " ++ alternatives
         else EmptyString;
         "Expert analysis (confidence: "
           ++ numberToString (confidence expertResult) ++ "):";
         slice0 2000 (output expertResult) ]).

Definition toStrategyResult (vote : VoteResponse) : StrategyResult :=
  {| strategy := vr_strategy vote;
     decision := vr_decision vote;
     approvalPercentage := vr_approvalPercentage vote;
     voteCounts := vr_voteCounts vote;
     durationMs := vr_durationMs vote |}.

Definition computeAgreement (results : list StrategyResult) : Q :=
  if (List.length results =? 0)%nat then 0%Q
  else
    let decisions := map decision results in
    let approvedCount :=
      List.length (filter (fun d => String.eqb d "approved") decisions) in
    let rejectedCount :=
      List.length (filter (fun d => String.eqb d "rejected") decisions) in
    let majorityCount := Nat.max approvedCount rejectedCount in
    (Z.of_nat majorityCount # Pos.of_nat (List.length results))%Q.

Definition inferExpertRole (task : string) : string :=
  let lower := toLowerCase task in
  if includes "security" lower || includes "vulnerab" lower
  then "security_expert"
  else if includes "architect" lower || includes "design" lower
  then "architecture_expert"
  else if includes "test" lower || includes "qa" lower
  then "testing_expert"
  else if includes "doc" lower || includes "readme" lower
  then "documentation_expert"
  else if includes "deploy" lower || includes "ci/cd" lower
  then "devops_expert"
  else if includes "research" lower || includes "paper" lower
  then "research_expert"
  else if includes "product" lower || includes "user stor" lower
  then "pm_expert"
  else if includes "ux" lower || includes "usability" lower
  then "ux_expert"
  else "code_expert".

(* ------------------------------------------------------------------------- *)
(** ** The pipeline over a gateway *)

(** One gateway invocation: the tool name and the argument bag, keys in
    insertion order. *)
Definition Args : Type := list (string * Json).
Definition Call : Type := (string * Args)%type.

Section Pipeline.

(** [ToolCaller]: a state [G] and [call], which answers with a result or
    throws, and moves to a next state. *)
Variable G : Type.
Variable call : G -> string -> Args -> G * (Thrown + Json).

(** The message of the [ZodError] that [schema.parse(raw)] throws on a
    rejected [raw]; the schema is named by its tool. *)
Variable zodMessage : string -> Json -> string.

(** The run's state: the gateway, and the calls issued so far. *)
Definition St : Type := (G * list Call)%type.

(** A computation that may throw. *)
Definition M (A : Type) : Type := St -> St * (Thrown + A).

Definition ret {A : Type} (a : A) : M A := fun st => (st, inr a).

Definition throw {A : Type} (e : Thrown) : M A := fun st => (st, inl e).

Definition bind {A B : Type} (m : M A) (k : A -> M B) : M B :=
  fun st =>
    match m st with
    | (st', inr a) => k a st'
    | (st', inl e) => (st', inl e)
    end.

(** [try { m } catch (e) { h(e) }]. *)
Definition tryCatch {A : Type} (m : M A) (h : Thrown -> M A) : M A :=
  fun st =>
    match m st with
    | (st', inr a) => (st', inr a)
    | (st', inl e) => h e st'
    end.

Notation "x <- m ;; k" := (bind m (fun x => k))
  (at level 61, m at next level, right associativity).

(** [await caller.call(tool, args)]. *)
Definition callTool (tool : string) (args : Args) : M Json :=
  fun st =>
    let '(g, issued) := st in
    let '(g', r) := call g tool args in
    ((g', (issued ++ [(tool, args)])%list), r).

(** [schema.parse(raw)]. *)
Definition parse {A : Type} (tool : string)
  (schema : option Json -> option A) (raw : Json) : M A :=
  match schema (Some raw) with
  | Some a => ret a
  | None => throw (JsError (zodMessage tool raw))
  end.

Definition delegateTask (task : string) (capability : option string)
  : M DelegateResponse :=
  let args : Args :=
    ([("task", JStr task)] ++
     match capability with
     | Some c => [("preferred_capability", JStr c)]
     | None => []
     end)%list in
  raw <- callTool "delegate_to_model" args ;;
  parse "delegate_to_model" DelegateResponseSchema raw.

Definition createExpert (role : string) : M CreateExpertResponse :=
  raw <- callTool "create_expert" [("role", JStr role)] ;;
  parse "create_expert" CreateExpertResponseSchema raw.

Definition executeExpert (expertId task : string) : M ExecuteExpertResponse :=
  raw <- callTool "execute_expert"
           [("expertId", JStr expertId); ("task", JStr task)] ;;
  parse "execute_expert" ExecuteExpertResponseSchema raw.

Definition voteWithStrategy (proposal : string) (strategy : VotingStrategy)
  : M VoteResponse :=
  raw <- callTool "consensus_vote"
           [("proposal", JStr proposal);
            ("strategy", JStr (strategyName strategy))] ;;
  parse "consensus_vote" VoteResponseSchema raw.

(** The two arrays the voting loop pushes to. *)
Definition Tally : Type := (list StrategyResult * list string)%type.

(** One iteration of [for (const strategy of strategies) { try ... catch ... }]. *)
Definition voteStep (proposal : string) (strategy : VotingStrategy)
  (acc : Tally) : M Tally :=
  tryCatch
    (vote <- voteWithStrategy proposal strategy ;;
     ret ((fst acc ++ [toStrategyResult vote])%list, snd acc))
    (fun e =>
       let message :=
         strategyName strategy ++ " vote failed: " ++ thrownMessage e in
       ret (fst acc, (snd acc ++ [message])%list)).

Fixpoint voteLoop (proposal : string) (todo : list VotingStrategy)
  (acc : Tally) : M Tally :=
  match todo with
  | [] => ret acc
  | strategy :: rest =>
      acc' <- voteStep proposal strategy acc ;;
      voteLoop proposal rest acc'
  end.

Definition expertTaskText (config : ShowdownConfig)
  (delegation : DelegateResponse) : string :=
  "Evaluate this model recommendation for the task: " ++ dquote
    ++ task config ++ dquote ++ newline ++ newline
    ++ "Recommended: " ++ recommended_model delegation ++ newline
    ++ "Reasoning: " ++ reasoning delegation.

Definition runShowdown (config : ShowdownConfig) : M ShowdownResult :=
  let errors0 : list string := [] in
  let strategies :=
    match Types.strategies config with
    | Some l => l
    | None => VOTING_STRATEGIES
    end in
  delegation <- delegateTask (task config)
                  (option_map capabilityName (preferredCapability config)) ;;
  let role :=
    match cfg_expertRole config with
    | Some r => r
    | None => inferExpertRole (task config)
    end in
  expert <- createExpert role ;;
  let expertTask := expertTaskText config delegation in
  expertResult <- executeExpert (ce_expertId expert) expertTask ;;
  let evaluation :=
    {| ev_task := task config;
       recommendedModel := recommended_model delegation;
       ev_reasoning := reasoning delegation;
       ev_alternatives :=
         map (fun a => mkAlternativeSummary (alt_model a) (alt_score a))
           (Types.alternatives delegation);
       expertRole := ce_role expert;
       expertOutput := output expertResult;
       expertConfidence := confidence expertResult |} in
  let proposal := buildProposal delegation expertResult in
  tally <- voteLoop proposal strategies ([], errors0) ;;
  let strategyAgreement := computeAgreement (fst tally) in
  ret {| evaluation := evaluation;
         strategyResults := fst tally;
         strategyAgreement := strategyAgreement;
         errors := snd tally |}.

(** A run from gateway state [g], no call issued yet. *)
Definition runFrom (g : G) (config : ShowdownConfig)
  : St * (Thrown + ShowdownResult) :=
  runShowdown config (g, []).

End Pipeline.

Arguments ret {G A} a st.
Arguments throw {G A} e st.
Arguments bind {G A B} m k st.
Arguments tryCatch {G A} m h st.
Arguments callTool {G} call tool args st.
Arguments parse {G} zodMessage {A} tool schema raw st.
Arguments delegateTask {G} call zodMessage task capability st.
Arguments createExpert {G} call zodMessage role st.
Arguments executeExpert {G} call zodMessage expertId task st.
Arguments voteWithStrategy {G} call zodMessage proposal strategy st.
Arguments voteStep {G} call zodMessage proposal strategy acc st.
Arguments voteLoop {G} call zodMessage proposal todo acc st.
Arguments runShowdown {G} call zodMessage config st.
Arguments runFrom {G} call zodMessage g config.

(* ------------------------------------------------------------------------- *)
(** ** Fixtures (src/fixtures/mock-responses.ts) and the test gateways *)

Module Fixtures.

Definition jnum (s : positive) (n : Z) : Json := JNum (Finite false s n).

Definition MOCK_DELEGATE_CODEX : Json :=
  JObj
    [ ("recommended_model", JStr "codex-5.3");
      ("reasoning",
       JStr ("Selected codex-5.3 (score: 97.0) because: complex reasoning"
             ++ " required, code generation task, preferred: code, plan"
             ++ " billing (cost ignored)"));
      ("capabilities",
       JObj [ ("reasoning", jnum 1 2); ("contextWindow", jnum 4 6);
              ("codeGeneration", jnum 1 2); ("speed", jnum 7 1);
              ("cost", jnum 5 1) ]);
      ("estimated_tokens", jnum 28 2);
      ("alternatives",
       JArr
         [ JObj [ ("model", JStr "codex-5.2"); ("score", jnum 95 2);
                  ("tradeoff", JStr "faster but less capable") ];
           JObj [ ("model", JStr "claude-opus"); ("score", jnum 85 2);
                  ("tradeoff", JStr "different tradeoffs") ];
           JObj [ ("model", JStr "claude-sonnet"); ("score", jnum 84 2);
                  ("tradeoff", JStr "cheaper but less capable") ] ]) ].

Definition MOCK_DELEGATE_WITH_GOVERNANCE : Json :=
  JObj
    [ ("recommended_model", JStr "claude-opus");
      ("reasoning",
       JStr "Selected claude-opus for security review requiring supermajority");
      ("capabilities",
       JObj [ ("reasoning", jnum 1 2); ("contextWindow", jnum 2 6);
              ("codeGeneration", jnum 9 1); ("speed", jnum 6 1);
              ("cost", jnum 1 2) ]);
      ("estimated_tokens", jnum 4 2);
      ("alternatives", JArr []);
      ("governance",
       JObj [ ("domain", JStr "security");
              ("votingThreshold", JStr "supermajority");
              ("promotionReason",
               JStr "Security-related task requires elevated consensus") ]) ].

Definition MOCK_CREATE_CODE_EXPERT : Json :=
  JObj
    [ ("expertId", JStr "code-expert");
      ("role", JStr "code_expert");
      ("capabilities",
       JArr [ JStr "task_execution"; JStr "code_generation";
              JStr "code_review"; JStr "tool_use"; JStr "collaboration" ]);
      ("status", JStr "ready") ].

Definition MOCK_EXECUTE_CODE : Json :=
  JObj
    [ ("expertId", JStr "code-expert");
      ("output",
       JStr ("Vitest is recommended for TypeScript projects. It offers native"
             ++ " ESM support, fast HMR-based execution, and first-class"
             ++ " TypeScript integration. Jest remains viable for larger"
             ++ " codebases with extensive mocking needs."));
      ("confidence", jnum 88 0);
      ("tokensUsed", jnum 125 4) ].

Definition MOCK_EXECUTE_TIMEOUT : Json :=
  JObj
    [ ("expertId", JStr "code-expert");
      ("output", JStr EmptyString);
      ("confidence", JNum Zero);
      ("tokensUsed", JNum Zero) ].

Definition agentVote (role decision : string) (conf : positive)
  (reasoning : string) : Json :=
  JObj [ ("role", JStr role); ("decision", JStr decision);
         ("confidence", jnum conf 0); ("reasoning", JStr reasoning);
         ("simulated", JBool false); ("error", JBool false) ].

Definition MOCK_VOTES : Json :=
  JArr
    [ agentVote "architect" "approve" 9 "Sound recommendation.";
      agentVote "security" "approve" 85 "No concerns.";
      agentVote "devex" "approve" 8 "Good developer experience.";
      agentVote "ai_ml" "approve" 95 "Optimal model selection.";
      agentVote "pm" "approve" 7 "Aligns with goals.";
      agentVote "catfish" "reject" 6 "Could be faster." ].

(** The vote mocks differ in strategy, decision, percentage and duration. *)
Definition mockVote (strategy decision : string) (percentage duration : Json)
  : Json :=
  JObj
    [ ("proposal",
       JStr "The model recommendation and expert analysis are sound.");
      ("strategy", JStr strategy);
      ("decision", JStr decision);
      ("approvalPercentage", percentage);
      ("voteCounts",
       JObj [ ("approve", jnum 5 1); ("reject", jnum 1 1);
              ("abstain", JNum Zero); ("error", JNum Zero) ]);
      ("votes", MOCK_VOTES);
      ("durationMs", duration);
      ("simulateVotes", JBool false) ].

Definition MOCK_VOTE_MAJORITY_APPROVED : Json :=
  mockVote "simple_majority" "approved" (jnum 833 2) (jnum 125 5).

Definition MOCK_VOTE_SUPERMAJORITY_APPROVED : Json :=
  mockVote "supermajority" "approved" (jnum 833 2) (jnum 125 5).

Definition MOCK_VOTE_UNANIMOUS_REJECTED : Json :=
  mockVote "unanimous" "rejected" (jnum 833 2) (jnum 131 5).

Definition MOCK_VOTE_POL_APPROVED : Json :=
  mockVote "proof_of_learning" "approved" (jnum 8 2) (jnum 152 5).

Definition MOCK_VOTE_HIGHER_ORDER_APPROVED : Json :=
  mockVote "higher_order" "approved" (jnum 85 2) (jnum 148 5).

Definition STRATEGY_MOCKS : list (string * Json) :=
  [ ("simple_majority", MOCK_VOTE_MAJORITY_APPROVED);
    ("supermajority", MOCK_VOTE_SUPERMAJORITY_APPROVED);
    ("unanimous", MOCK_VOTE_UNANIMOUS_REJECTED);
    ("proof_of_learning", MOCK_VOTE_POL_APPROVED);
    ("higher_order", MOCK_VOTE_HIGHER_ORDER_APPROVED) ].

(** [strategyAwareCaller()]: the vote mock of the requested strategy.  Its
    state is not observed by the pipeline. *)
Definition strategyAwareCaller (g : unit) (tool : string) (args : Args)
  : unit * (Thrown + Json) :=
  (g,
   if String.eqb tool "delegate_to_model" then inr MOCK_DELEGATE_CODEX
   else if String.eqb tool "create_expert" then inr MOCK_CREATE_CODE_EXPERT
   else if String.eqb tool "execute_expert" then inr MOCK_EXECUTE_CODE
   else if String.eqb tool "consensus_vote" then
     match getField "strategy" args with
     | Some (JStr s) =>
         match getField s STRATEGY_MOCKS with
         | Some v => inr v
         | None => inr MOCK_VOTE_MAJORITY_APPROVED
         end
     | _ => inr MOCK_VOTE_MAJORITY_APPROVED
     end
   else inl (JsError ("Unexpected tool: " ++ tool))).

(** The gateway of the test "captures vote errors without stopping": the
    state is [callCount]; the third vote throws. *)
Definition flakyCaller (callCount : nat) (tool : string) (args : Args)
  : nat * (Thrown + Json) :=
  if String.eqb tool "delegate_to_model" then
    (callCount, inr MOCK_DELEGATE_CODEX)
  else if String.eqb tool "create_expert" then
    (callCount, inr MOCK_CREATE_CODE_EXPERT)
  else if String.eqb tool "execute_expert" then
    (callCount, inr MOCK_EXECUTE_CODE)
  else if String.eqb tool "consensus_vote" then
    let callCount' := S callCount in
    if (callCount' =? 3)%nat then (callCount', inl (JsError "vote timeout"))
    else (callCount', inr MOCK_VOTE_MAJORITY_APPROVED)
  else (callCount, inl (JsError ("Unexpected: " ++ tool))).

(** [mockCaller(responses)]: one fixed response per tool. *)
Definition mockCaller (responses : list (string * Json)) (g : unit)
  (tool : string) (args : Args) : unit * (Thrown + Json) :=
  (g,
   match getField tool responses with
   | Some response => inr response
   | None => inl (JsError ("Unexpected tool: " ++ tool))
   end).

(** A strategy result with decision [d], the other fields as in the
    majority mock. *)
Definition withDecision (d : string) : StrategyResult :=
  {| strategy := "simple_majority"; decision := d;
     approvalPercentage := Finite false 833 2;
     voteCounts := mkVoteCounts (Finite false 5 1) (Finite false 1 1) Zero Zero;
     durationMs := Finite false 125 5 |}.

(** The fixtures as their schemas accept them. *)
Definition codexDelegation : DelegateResponse :=
  ltac:(let v := eval vm_compute in
              (DelegateResponseSchema (Some MOCK_DELEGATE_CODEX)) in
        match v with Some ?d => exact d end).

Definition governedDelegation : DelegateResponse :=
  ltac:(let v := eval vm_compute in
              (DelegateResponseSchema (Some MOCK_DELEGATE_WITH_GOVERNANCE)) in
        match v with Some ?d => exact d end).

Definition codeExpert : CreateExpertResponse :=
  ltac:(let v := eval vm_compute in
              (CreateExpertResponseSchema (Some MOCK_CREATE_CODE_EXPERT)) in
        match v with Some ?d => exact d end).

Definition codeExecution : ExecuteExpertResponse :=
  ltac:(let v := eval vm_compute in
              (ExecuteExpertResponseSchema (Some MOCK_EXECUTE_CODE)) in
        match v with Some ?d => exact d end).

Definition timeoutExecution : ExecuteExpertResponse :=
  ltac:(let v := eval vm_compute in
              (ExecuteExpertResponseSchema (Some MOCK_EXECUTE_TIMEOUT)) in
        match v with Some ?d => exact d end).

(** [{ ...MOCK_EXECUTE_CODE, output: 'x'.repeat(5000) }]. *)
Definition longExecution : ExecuteExpertResponse :=
  {| ee_expertId := ee_expertId codeExecution;
     output := repeatChar "x"%char 5000;
     confidence := confidence codeExecution;
     tokensUsed := tokensUsed codeExecution |}.

(** The configurations of the pipeline tests. *)
Definition taskOnly (task : string) : ShowdownConfig :=
  {| task := task; preferredCapability := None; cfg_expertRole := None;
     strategies := None |}.

Definition fullConfig : ShowdownConfig :=
  {| task := "Compare TypeScript testing frameworks";
     preferredCapability := Some cap_is_code;
     cfg_expertRole := Some "code_expert";
     strategies := None |}.

Definition subsetConfig : ShowdownConfig :=
  {| task := "Test"; preferredCapability := None; cfg_expertRole := None;
     strategies := Some [simple_majority; unanimous] |}.

(** Responses for three tools; a voting call finds none and throws. *)
Definition noVoteResponses : list (string * Json) :=
  [ ("delegate_to_model", MOCK_DELEGATE_CODEX);
    ("create_expert", MOCK_CREATE_CODE_EXPERT);
    ("execute_expert", MOCK_EXECUTE_CODE) ].

(** A creation response its schema rejects: no [role]. *)
Definition badCreateResponses : list (string * Json) :=
  [ ("delegate_to_model", MOCK_DELEGATE_CODEX);
    ("create_expert", JObj [ ("expertId", JStr "code-expert") ]);
    ("execute_expert", MOCK_EXECUTE_CODE);
    ("consensus_vote", MOCK_VOTE_MAJORITY_APPROVED) ].

(** The message of a [ZodError] in the concrete runs: the schema's tool. *)
Definition zodText (tool : string) (raw : Json) : string :=
  "invalid " ++ tool ++ " response".

End Fixtures.
Import Fixtures.

(* ------------------------------------------------------------------------- *)
(** ** The specification's wording, to compare the code with *)

Module Spec.

(** How many entries carry decision [d]. *)
Definition countDecision (d : string) (results : list StrategyResult) : nat :=
  count_occ string_dec (map decision results) d.

(** max(approvedCount, rejectedCount) / totalCount, and 0 on no entry. *)
Definition agreementRatio (results : list StrategyResult) : Q :=
  match results with
  | [] => 0%Q
  | _ =>
      (inject_Z (Z.of_nat (Nat.max (countDecision "approved" results)
                                   (countDecision "rejected" results)))
       / inject_Z (Z.of_nat (List.length results)))%Q
  end.

(** The ordered rule table of role inference: keywords, then the role. *)
Definition roleRules : list (list string * string) :=
  [ (["security"; "vulnerab"], "security_expert");
    (["architect"; "design"], "architecture_expert");
    (["test"; "qa"], "testing_expert");
    (["doc"; "readme"], "documentation_expert");
    (["deploy"; "ci/cd"], "devops_expert");
    (["research"; "paper"], "research_expert");
    (["product"; "user stor"], "pm_expert");
    (["ux"; "usability"], "ux_expert") ].

(** First rule with a keyword occurring in [text] wins; else [fallback]. *)
Fixpoint firstMatch (rules : list (list string * string)) (fallback : string)
  (text : string) : string :=
  match rules with
  | [] => fallback
  | (keywords, role) :: rest =>
      if existsb (fun k => includes k text) keywords then role
      else firstMatch rest fallback text
  end.

(** [p] occurs in [s]. *)
Definition Contains (p s : string) : Prop :=
  exists before after, s = before ++ p ++ after.

(** The first four lines of a proposal; the alternatives line is there
    exactly when the list has an entry. *)
Definition headLines (d : DelegateResponse) (e : ExecuteExpertResponse)
  : list string :=
  let modelLine := "Model recommendation: " ++ recommended_model d in
  let reasoningLine := "Reasoning: " ++ reasoning d in
  let alternativesLine :=
    "Alternatives: " ++ join ", " (map alternativeText (alternatives d)) in
  let confidenceLine :=
    "Expert analysis (confidence: "
      ++ numberToString (confidence e) ++ "):" in
  ([ modelLine; reasoningLine ]
   ++ match alternatives d with
      | [] => []
      | _ => [ alternativesLine ]
      end
   ++ [ confidenceLine ])%list.

(** The text up to and including the confidence line; it does not depend
    on the expert output. *)
Definition proposalHead (d : DelegateResponse) (e : ExecuteExpertResponse) : string :=
  join newline (headLines d e).

(** The proposal with the truncated output always as its last line. *)
Definition proposalWithOutputLine (d : DelegateResponse)
  (e : ExecuteExpertResponse) : string :=
  join newline (headLines d e ++ [ slice0 2000 (output e) ])%list.

(** The proposal with the output line left out when the output is empty. *)
Definition proposalOmittingEmpty (d : DelegateResponse)
  (e : ExecuteExpertResponse) : string :=
  join newline
    (headLines d e ++
     match output e with
     | EmptyString => []
     | out => [ slice0 2000 out ]
     end)%list.

End Spec.
Import Spec.

(* ------------------------------------------------------------------------- *)
(** ** Observing a run *)

Section Observing.

Variable G : Type.
Variable call : G -> string -> Args -> G * (Thrown + Json).
Variable zodMessage : string -> Json -> string.

(** One gateway call followed by validation, outside of the run monad. *)
Definition validated {A : Type} (tool : string)
  (schema : option Json -> option A) (args : Args) (g : G)
  : G * (Thrown + A) :=
  let '(g', r) := call g tool args in
  (g',
   match r with
   | inl e => inl e
   | inr raw =>
       match schema (Some raw) with
       | Some a => inr a
       | None => inl (JsError (zodMessage tool raw))
       end
   end).

Definition configuredStrategies (config : ShowdownConfig)
  : list VotingStrategy :=
  match strategies config with
  | Some l => l
  | None => VOTING_STRATEGIES
  end.

Definition requestedRole (config : ShowdownConfig) : string :=
  match cfg_expertRole config with
  | Some r => r
  | None => inferExpertRole (task config)
  end.

Definition delegateCall (config : ShowdownConfig) : Call :=
  ("delegate_to_model",
   (("task", JStr (task config)) ::
    match preferredCapability config with
    | Some c => [("preferred_capability", JStr (capabilityName c))]
    | None => []
    end)).

Definition createCall (role : string) : Call :=
  ("create_expert", [("role", JStr role)]).

Definition executeCall (expertId prompt : string) : Call :=
  ("execute_expert", [("expertId", JStr expertId); ("task", JStr prompt)]).

Definition voteCall (proposal : string) (s : VotingStrategy) : Call :=
  ("consensus_vote",
   [("proposal", JStr proposal); ("strategy", JStr (strategyName s))]).

Definition answer {A : Type} (schema : option Json -> option A) (c : Call)
  (g : G) : G * (Thrown + A) :=
  validated (fst c) schema (snd c) g.

(** Stages 1-3 all succeed from gateway state [g]: the three validated
    values, and the gateway state the voting starts from. *)
Definition StagesSucceed (g : G) (config : ShowdownConfig)
  (d : DelegateResponse) (x : CreateExpertResponse)
  (er : ExecuteExpertResponse) (g3 : G) : Prop :=
  exists g1 g2,
    answer DelegateResponseSchema (delegateCall config) g = (g1, inr d) /\
    answer CreateExpertResponseSchema (createCall (requestedRole config)) g1
      = (g2, inr x) /\
    answer ExecuteExpertResponseSchema
      (executeCall (ce_expertId x) (expertTaskText config d)) g2
      = (g3, inr er).

(** One of stages 1-3 fails with [e], the earlier ones having succeeded. *)
Definition StageFails (g : G) (config : ShowdownConfig) (e : Thrown) : Prop :=
  (exists g1,
     answer DelegateResponseSchema (delegateCall config) g = (g1, inl e)) \/
  (exists g1 d g2,
     answer DelegateResponseSchema (delegateCall config) g = (g1, inr d) /\
     answer CreateExpertResponseSchema (createCall (requestedRole config)) g1
       = (g2, inl e)) \/
  (exists g1 d g2 x g3,
     answer DelegateResponseSchema (delegateCall config) g = (g1, inr d) /\
     answer CreateExpertResponseSchema (createCall (requestedRole config)) g1
       = (g2, inr x) /\
     answer ExecuteExpertResponseSchema
       (executeCall (ce_expertId x) (expertTaskText config d)) g2
       = (g3, inl e)).

(** What each configured strategy's voting call yields, in order, from
    gateway state [g]; and the gateway state after them. *)
Fixpoint voteOutcomes (proposal : string) (todo : list VotingStrategy) (g : G)
  : list (VotingStrategy * (Thrown + VoteResponse)) :=
  match todo with
  | [] => []
  | s :: rest =>
      let '(g', o) := answer VoteResponseSchema (voteCall proposal s) g in
      (s, o) :: voteOutcomes proposal rest g'
  end.

Fixpoint gatewayAfterVotes (proposal : string) (todo : list VotingStrategy)
  (g : G) : G :=
  match todo with
  | [] => g
  | s :: rest =>
      gatewayAfterVotes proposal rest
        (fst (answer VoteResponseSchema (voteCall proposal s) g))
  end.

End Observing.

Arguments validated {G} call zodMessage {A} tool schema args g.
Arguments answer {G} call zodMessage {A} schema c g.
Arguments StagesSucceed {G} call zodMessage g config d x er g3.
Arguments StageFails {G} call zodMessage g config e.
Arguments voteOutcomes {G} call zodMessage proposal todo g.
Arguments gatewayAfterVotes {G} call zodMessage proposal todo g.

(** The successes of a list of vote outcomes, projected. *)
Fixpoint successesOf (l : list (VotingStrategy * (Thrown + VoteResponse)))
  : list StrategyResult :=
  match l with
  | [] => []
  | (_, inr v) :: rest => toStrategyResult v :: successesOf rest
  | (_, inl _) :: rest => successesOf rest
  end.

(** The error strings of a list of vote outcomes. *)
Fixpoint failuresOf (l : list (VotingStrategy * (Thrown + VoteResponse)))
  : list string :=
  match l with
  | [] => []
  | (_, inr _) :: rest => failuresOf rest
  | (s, inl e) :: rest =>
      (strategyName s ++ " vote failed: " ++ thrownMessage e)
        :: failuresOf rest
  end.

(** The result a run assembles once stages 1-3 gave [d], [x] and [er] and
    the voting starts from gateway state [g3]. *)
Definition assembled {G : Type}
  (call : G -> string -> Args -> G * (Thrown + Json))
  (zodMessage : string -> Json -> string)
  (config : ShowdownConfig) (d : DelegateResponse)
  (x : CreateExpertResponse) (er : ExecuteExpertResponse) (g3 : G)
  : ShowdownResult :=
  let outs :=
    voteOutcomes call zodMessage (buildProposal d er)
      (configuredStrategies config) g3 in
  {| evaluation :=
       {| ev_task := task config;
          recommendedModel := recommended_model d;
          ev_reasoning := reasoning d;
          ev_alternatives :=
            map (fun a => mkAlternativeSummary (alt_model a) (alt_score a))
              (alternatives d);
          expertRole := ce_role x;
          expertOutput := output er;
          expertConfidence := confidence er |};
     strategyResults := successesOf outs;
     strategyAgreement := computeAgreement (successesOf outs);
     errors := failuresOf outs |}.

Definition isFailure {A B : Type} (o : VotingStrategy * (A + B)) : bool :=
  match snd o with inl _ => true | inr _ => false end.

Definition isVoteCall (c : Call) : bool := String.eqb (fst c) "consensus_vote".

(* ------------------------------------------------------------------------- *)
(** ** The input schemas (src/types.ts) *)

Module Inputs.

(** [z.string().min(lo)]. *)
Definition zStringMin (lo : nat) (v : option Json) : option string :=
  match v with
  | Some (JStr s) => if (lo <=? String.length s)%nat then Some s else None
  | _ => None
  end.

(** [z.string().min(lo).max(hi)]. *)
Definition zStringMinMax (lo hi : nat) (v : option Json) : option string :=
  match v with
  | Some (JStr s) =>
      if ((lo <=? String.length s) && (String.length s <=? hi))%nat
      then Some s else None
  | _ => None
  end.

(** [z.record(z.unknown())]: any object, its entries kept. *)
Definition zRecord (v : option Json) : option (list (string * Json)) :=
  match v with Some (JObj fields) => Some fields | _ => None end.

Definition CAPABILITY_NAMES : list string :=
  ["reasoning"; "context"; "speed"; "code"].

Definition EXPERT_ROLES : list string :=
  [ "code_expert"; "architecture_expert"; "security_expert";
    "documentation_expert"; "testing_expert"; "devops_expert";
    "research_expert"; "pm_expert"; "ux_expert" ].

Record DelegateInput : Type := mkDelegateInput
  { di_task : string;
    di_preferred_capability : option string;
    di_model_hint : option string;
    di_estimate_tokens : option bool;
    di_billing_mode : option string }.

Definition DelegateInputSchema : option Json -> option DelegateInput :=
  zObject (fun o =>
    t <-? zStringMin 1 (getField "task" o);
    c <-? zOptional (zEnum CAPABILITY_NAMES) (getField "preferred_capability" o);
    h <-? zOptional zString (getField "model_hint" o);
    e <-? zOptional zBoolean (getField "estimate_tokens" o);
    b <-? zOptional (zEnum ["plan"; "api"]) (getField "billing_mode" o);
    Some (mkDelegateInput t c h e b)).

Record CreateExpertInput : Type := mkCreateExpertInput
  { ci_role : string; ci_modelPreference : option string }.

Definition CreateExpertInputSchema : option Json -> option CreateExpertInput :=
  zObject (fun o =>
    r <-? zEnum EXPERT_ROLES (getField "role" o);
    m <-? zOptional zString (getField "modelPreference" o);
    Some (mkCreateExpertInput r m)).

Record ExecuteExpertInput : Type := mkExecuteExpertInput
  { xi_expertId : string;
    xi_task : string;
    xi_context : option (list (string * Json)) }.

Definition ExecuteExpertInputSchema
  : option Json -> option ExecuteExpertInput :=
  zObject (fun o =>
    i <-? zStringMin 1 (getField "expertId" o);
    t <-? zStringMin 1 (getField "task" o);
    c <-? zOptional zRecord (getField "context" o);
    Some (mkExecuteExpertInput i t c)).

Record VoteInput : Type := mkVoteInput
  { vi_proposal : string;
    vi_strategy : option string;
    vi_quickMode : option bool;
    vi_simulateVotes : option bool }.

Definition VoteInputSchema : option Json -> option VoteInput :=
  zObject (fun o =>
    p <-? zStringMinMax 1 4000 (getField "proposal" o);
    s <-? zOptional (zEnum (map strategyName VOTING_STRATEGIES))
            (getField "strategy" o);
    q <-? zOptional zBoolean (getField "quickMode" o);
    si <-? zOptional zBoolean (getField "simulateVotes" o);
    Some (mkVoteInput p s q si)).

(** The input schema a tool's arguments are meant for; a schema accepts
    an argument bag when its [safeParse] succeeds. *)
Definition accepts {A : Type} (schema : option Json -> option A) (args : Args)
  : bool :=
  match schema (Some (JObj args)) with Some _ => true | None => false end.

End Inputs.
Import Inputs.

(* ------------------------------------------------------------------------- *)
(** ** The report formatter (src/reporter.ts) *)

Inductive ReportFormat : Type := markdown | json | text.

Section Reporter.

(** [(x * 100).toFixed(0)] on a carried number and on the agreement ratio:
    double arithmetic, left to the two renderers. *)
Variable percentOfNumber : number -> string.
Variable percentOfRatio : Q -> string.

(** The one-unit string U+2014 of the alternatives rows. *)
Variable emDash : string.

(** [JSON.stringify(result, null, 2)]. *)
Variable stringify : ShowdownResult -> string.

Definition strategyIcon (r : StrategyResult) : string :=
  if String.eqb (decision r) "approved" then "PASS" else "FAIL".

Definition textStrategyLine (s : StrategyResult) : string :=
  "  " ++ strategyIcon s ++ " " ++ strategy s ++ ": " ++ decision s
    ++ " (" ++ numberToString (approvalPercentage s) ++ "%, "
    ++ numberToString (durationMs s) ++ "ms)".

Definition textAlternativeLine (a : AlternativeSummary) : string :=
  "  - " ++ as_model a ++ " (score: " ++ numberToString (as_score a) ++ ")".

Definition textErrorLine (e : string) : string := "  - " ++ e.

(** The [lines] array of [formatText] when it is joined. *)
Definition textLines (r : ShowdownResult) : list string :=
  let ev := evaluation r in
  let header :=
    [ "Model Showdown: " ++ ev_task ev;
      "Recommended: " ++ recommendedModel ev;
      "Expert: " ++ expertRole ev ++ " (confidence: "
        ++ percentOfNumber (expertConfidence ev) ++ "%)";
      "Strategy Agreement: " ++ percentOfRatio (strategyAgreement r) ++ "%";
      EmptyString;
      "Strategy Results:" ] in
  (header
   ++ map textStrategyLine (strategyResults r)
   ++ (if (0 <? List.length (ev_alternatives ev))%nat
       then EmptyString :: "Alternatives:"
              :: map textAlternativeLine (ev_alternatives ev)
       else [])
   ++ (if (0 <? List.length (errors r))%nat
       then EmptyString :: "Errors:" :: map textErrorLine (errors r)
       else []))%list.

Definition formatText (r : ShowdownResult) : string :=
  join newline (textLines r).

Definition markdownAlternativeLine (a : AlternativeSummary) : string :=
  "- **" ++ as_model a ++ "** " ++ emDash ++ " score: "
    ++ numberToString (as_score a).

Definition markdownStrategyRow (s : StrategyResult) : string :=
  "| " ++ strategy s ++ " | " ++ decision s ++ " | "
    ++ numberToString (approvalPercentage s) ++ "% | "
    ++ numberToString (durationMs s) ++ "ms |".

Definition markdownErrorLine (e : string) : string := "- " ++ e.

(** The [lines] array of [formatMarkdown] when it is joined. *)
Definition markdownLines (r : ShowdownResult) : list string :=
  let ev := evaluation r in
  let header :=
    [ "# Model Showdown: " ++ ev_task ev;
      EmptyString;
      "## Model Recommendation";
      EmptyString;
      "| Metric | Value |";
      "| --- | --- |";
      "| Recommended Model | " ++ recommendedModel ev ++ " |";
      "| Expert Role | " ++ expertRole ev ++ " |";
      "| Expert Confidence | " ++ percentOfNumber (expertConfidence ev)
        ++ "% |";
      "| Strategy Agreement | " ++ percentOfRatio (strategyAgreement r)
        ++ "% |" ] in
  (header
   ++ (if (0 <? List.length (ev_alternatives ev))%nat
       then EmptyString :: "## Alternatives" :: EmptyString
              :: map markdownAlternativeLine (ev_alternatives ev)
       else [])
   ++ [ EmptyString; "## Voting Strategy Comparison"; EmptyString;
        "| Strategy | Decision | Approval | Duration |";
        "| --- | --- | --- | --- |" ]
   ++ map markdownStrategyRow (strategyResults r)
   ++ (if truthy (expertOutput ev)
       then [ EmptyString; "## Expert Analysis"; EmptyString;
              expertOutput ev ]
       else [])
   ++ (if (0 <? List.length (errors r))%nat
       then EmptyString :: "## Errors" :: EmptyString
              :: map markdownErrorLine (errors r)
       else []))%list.

Definition formatMarkdown (r : ShowdownResult) : string :=
  join newline (markdownLines r).

(** [generateReport(result, format = 'markdown')]; [None] is an omitted
    format. *)
Definition generateReport (result : ShowdownResult)
  (format : option ReportFormat) : string :=
  match match format with Some f => f | None => markdown end with
  | json => stringify result
  | text => formatText result
  | markdown => formatMarkdown result
  end.

End Reporter.

(** The encoding of typed responses as gateway values, key by key. *)
Module Encode.












End Encode.

(* ------------------------------------------------------------------------- *)
(** ** Fixtures of the reporter tests (src/reporter.test.ts) *)

Module ReportFixtures.





(** Renderers for the concrete reports: [(x * 100).toFixed(0)] on the
    values the fixtures and the test runs hold. *)
Definition fixturePercentOfNumber (x : number) : string :=
  match x with
  | Zero => "0"
  | Finite false 88 0%Z => "88"
  | _ => "?"
  end.

Definition fixturePercentOfRatio (q : Q) : string :=
  if Qeq_bool q (67 # 100) then "67"
  else if Qeq_bool q (4 # 5) then "80"
  else if Qeq_bool q 0 then "0"
  else if Qeq_bool q 1 then "100"
  else "?".

(** U+2014 as its three UTF-8 bytes. *)
Definition fixtureEmDash : string :=
  String (ascii_of_nat 226)
    (String (ascii_of_nat 128) (String (ascii_of_nat 148) EmptyString)).

Definition fixtureStringify (r : ShowdownResult) : string := "{}".

End ReportFixtures.
Import ReportFixtures.

(* ========================================================================= *)
(** * Properties *)

(** ** Number rendering on the fixture values *)

Example numberToString_088 : numberToString (Finite false 88 0) = "0.88".
Proof. reflexivity. Qed.

Example numberToString_85 : numberToString (Finite false 85 2) = "85".
Proof. reflexivity. Qed.

Example numberToString_833 : numberToString (Finite false 833 2) = "83.3".
Proof. reflexivity. Qed.

Example numberToString_12500 : numberToString (Finite false 125 5) = "12500".
Proof. reflexivity. Qed.

Example numberToString_1e21 : numberToString (Finite false 1 22) = "1e+21".
Proof. reflexivity. Qed.

Example numberToString_small :
  numberToString (Finite true 15 (-6)) = "-1.5e-7".
Proof. reflexivity. Qed.

(* ------------------------------------------------------------------------- *)
(** ** Strings *)

Section StringFacts.

Lemma append_assoc (a b c : string) : (a ++ b) ++ c = a ++ (b ++ c).
Proof. induction a as [|x a IH]; simpl; [reflexivity | now rewrite IH]. Qed.

Lemma append_empty_r (a : string) : a ++ EmptyString = a.
Proof. induction a as [|x a IH]; simpl; [reflexivity | now rewrite IH]. Qed.

Lemma length_append (a b : string) :
  String.length (a ++ b) = String.length a + String.length b.
Proof. induction a as [|x a IH]; simpl; [reflexivity | now rewrite IH]. Qed.

Lemma slice0_length (n : nat) (s : string) :
  String.length (slice0 n s) = Nat.min n (String.length s).
Proof.
  unfold slice0. revert s.
  induction n as [|n IH]; intros [|c s]; simpl; try reflexivity.
  now rewrite IH.
Qed.

Lemma slice0_short (n : nat) (s : string) :
  String.length s <= n -> slice0 n s = s.
Proof.
  unfold slice0. revert s.
  induction n as [|n IH]; intros [|c s]; simpl; intros H;
    try reflexivity; [lia|].
  rewrite IH; [reflexivity | lia].
Qed.

(** [slice0 n s] is a prefix of [s]: nothing is put after the cut. *)
Lemma slice0_prefix (n : nat) (s : string) :
  exists dropped, s = slice0 n s ++ dropped.
Proof.
  unfold slice0. revert s.
  induction n as [|n IH]; intros [|c s]; simpl.
  - now exists EmptyString.
  - now exists (String c s).
  - now exists EmptyString.
  - destruct (IH s) as [t Ht]. exists t. now rewrite <- Ht.
Qed.

Lemma truthy_append_l (a b : string) : truthy a = true -> truthy (a ++ b) = true.
Proof. now destruct a. Qed.

Lemma truthy_append_r (a b : string) : truthy b = true -> truthy (a ++ b) = true.
Proof. destruct a; simpl; auto. Qed.

Lemma startsWith_iff (p s : string) :
  startsWith p s = true <-> exists rest, s = p ++ rest.
Proof.
  revert s. induction p as [|a p IH]; intros s; simpl.
  - split; [intros _; now exists s | reflexivity].
  - destruct s as [|b s].
    + split; [discriminate | intros [rest H]; discriminate].
    + rewrite andb_true_iff, IH. split.
      * intros [Hab [rest ->]]. apply Ascii.eqb_eq in Hab as ->. now exists rest.
      * intros [rest H]. injection H as -> ->.
        split; [apply Ascii.eqb_refl | now exists rest].
Qed.

(** [includes] decides occurrence. *)
Lemma includes_iff (p s : string) : includes p s = true <-> Contains p s.
Proof.
  unfold Contains. induction s as [|c s IH].
  - simpl. rewrite orb_false_r, startsWith_iff. split.
    + intros [rest H]. now exists EmptyString, rest.
    + intros (before & after & H). destruct before; [|discriminate].
      now exists after.
  - cbn [includes]. rewrite orb_true_iff, startsWith_iff, IH. split.
    + intros [[rest H] | (before & after & H)].
      * now exists EmptyString, rest.
      * exists (String c before), after. simpl. now rewrite <- H.
    + intros (before & after & H). destruct before as [|b before].
      * left. now exists after.
      * right. injection H as _ ->. now exists before, after.
Qed.

Lemma Contains_refl (s : string) : Contains s s.
Proof. exists EmptyString, EmptyString. now rewrite append_empty_r. Qed.

Lemma Contains_trans (p q s : string) :
  Contains p q -> Contains q s -> Contains p s.
Proof.
  intros (b1 & a1 & ->) (b2 & a2 & ->).
  exists (b2 ++ b1), (a1 ++ a2). now rewrite !append_assoc.
Qed.

Lemma Contains_append_l (p a b : string) : Contains p a -> Contains p (a ++ b).
Proof.
  intros (x & y & ->). exists x, (y ++ b). now rewrite !append_assoc.
Qed.

Lemma Contains_append_r (p a b : string) : Contains p b -> Contains p (a ++ b).
Proof.
  intros (x & y & ->). exists (a ++ x), y. now rewrite !append_assoc.
Qed.

Lemma join_cons (sep x : string) (rest : list string) :
  rest <> [] -> join sep (x :: rest) = x ++ sep ++ join sep rest.
Proof. destruct rest; [congruence | reflexivity]. Qed.

Lemma join_snoc (sep : string) (l : list string) (x : string) :
  l <> [] -> join sep (l ++ [x])%list = join sep l ++ sep ++ x.
Proof.
  induction l as [|y l IH]; [congruence|]. intros _.
  destruct l as [|z l]; [reflexivity|].
  change ((y :: z :: l) ++ [x])%list with (y :: ((z :: l) ++ [x]))%list.
  rewrite join_cons by (destruct l; discriminate).
  rewrite IH by discriminate.
  rewrite (join_cons sep y (z :: l)) by discriminate.
  now rewrite !append_assoc.
Qed.

Lemma Contains_join (sep x : string) (l : list string) :
  In x l -> Contains x (join sep l).
Proof.
  induction l as [|y l IH]; [contradiction|].
  intros [-> | Hin].
  - destruct l; [apply Contains_refl|].
    rewrite join_cons by discriminate.
    apply Contains_append_l, Contains_refl.
  - destruct l as [|z l]; [contradiction|].
    rewrite join_cons by discriminate.
    apply Contains_append_r, Contains_append_r, IH, Hin.
Qed.

Lemma lowerChar_idempotent (c : ascii) : lowerChar (lowerChar c) = lowerChar c.
Proof. destruct c as [[] [] [] [] [] [] [] []]; reflexivity. Qed.

Lemma toLowerCase_idempotent (s : string) :
  toLowerCase (toLowerCase s) = toLowerCase s.
Proof.
  induction s as [|c s IH]; simpl; [reflexivity|].
  now rewrite lowerChar_idempotent, IH.
Qed.

End StringFacts.

(* ------------------------------------------------------------------------- *)
(** ** computeAgreement *)

Section Agreement.

Lemma filter_eqb_length (d : string) (l : list string) :
  List.length (filter (fun x => String.eqb x d) l) = count_occ string_dec l d.
Proof.
  induction l as [|x l IH]; simpl; [reflexivity|].
  destruct (String.eqb_spec x d) as [->|Hne].
  - destruct (string_dec d d); [simpl; now rewrite IH | congruence].
  - destruct (string_dec x d); [congruence | exact IH].
Qed.

Lemma countDecision_le (d : string) (rs : list StrategyResult) :
  countDecision d rs <= List.length rs.
Proof.
  unfold countDecision.
  rewrite <- (length_map decision rs).
  apply count_occ_bound.
Qed.

Lemma countDecision_cons (d : string) (r : StrategyResult)
  (rs : list StrategyResult) :
  countDecision d (r :: rs) =
  (if string_dec (decision r) d then 1 else 0) + countDecision d rs.
Proof.
  unfold countDecision; simpl.
  destruct (string_dec (decision r) d); reflexivity.
Qed.

(** The code's two filters are the two counts. *)
Lemma computeAgreement_unfold (rs : list StrategyResult) :
  rs <> [] ->
  computeAgreement rs =
  (Z.of_nat (Nat.max (countDecision "approved" rs) (countDecision "rejected" rs))
   # Pos.of_nat (List.length rs))%Q.
Proof.
  intros Hne. unfold computeAgreement.
  destruct rs as [|r rs]; [congruence|].
  cbn [List.length Nat.eqb].
  now rewrite !filter_eqb_length.
Qed.

Lemma Zpos_of_nat (n : nat) : n <> 0 -> Z.pos (Pos.of_nat n) = Z.of_nat n.
Proof.
  intros Hn. now rewrite <- positive_nat_Z, Nat2Pos.id.
Qed.

Lemma Qmake_of_nat (m n : nat) :
  n <> 0 ->
  (Z.of_nat m # Pos.of_nat n == inject_Z (Z.of_nat m) / inject_Z (Z.of_nat n))%Q.
Proof.
  intros Hn. now rewrite Qmake_Qdiv, Zpos_of_nat.
Qed.

Lemma Qmake_unit_interval (m n : nat) :
  n <> 0 -> m <= n -> (0 <= Z.of_nat m # Pos.of_nat n <= 1)%Q.
Proof.
  intros Hn Hle. unfold Qle; simpl.
  rewrite (Zpos_of_nat n Hn). lia.
Qed.

Lemma Qmake_same (n : nat) :
  n <> 0 -> (Z.of_nat n # Pos.of_nat n == 1)%Q.
Proof.
  intros Hn. unfold Qeq; simpl.
  rewrite (Zpos_of_nat n Hn). lia.
Qed.

(** C3. computeAgreement is 0 on the empty list; on a non-empty list it is
    max(number of "approved", number of "rejected") over the number of
    entries, a ratio in [0,1]; an entry with any other decision ("pending",
    "timeout") adds one to the denominator and nothing to either count; four
    "approved" and one "rejected" give 0.8. *)
Theorem computeAgreement_is_majority_ratio :
  computeAgreement [] = 0%Q /\
  (forall rs : list StrategyResult,
     rs <> [] ->
     (computeAgreement rs ==
        inject_Z (Z.of_nat (Nat.max (countDecision "approved" rs)
                                    (countDecision "rejected" rs)))
        / inject_Z (Z.of_nat (List.length rs)))%Q /\
     (computeAgreement rs == agreementRatio rs)%Q /\
     (0 <= computeAgreement rs <= 1)%Q) /\
  (forall (r : StrategyResult) (rs : list StrategyResult),
     decision r <> "approved" -> decision r <> "rejected" ->
     (computeAgreement (r :: rs) ==
        inject_Z (Z.of_nat (Nat.max (countDecision "approved" rs)
                                    (countDecision "rejected" rs)))
        / inject_Z (Z.of_nat (S (List.length rs))))%Q) /\
  (computeAgreement
     [withDecision "approved"; withDecision "approved";
      withDecision "approved"; withDecision "approved";
      withDecision "rejected"] == 0.8)%Q.
Proof.
  split; [reflexivity|]. split; [|split].
  - intros rs Hne.
    assert (Hlen : List.length rs <> 0) by (destruct rs; simpl; congruence).
    rewrite (computeAgreement_unfold rs Hne).
    split; [|split].
    + now apply Qmake_of_nat.
    + unfold agreementRatio. destruct rs as [|r rs']; [congruence|].
      now apply Qmake_of_nat.
    + apply Qmake_unit_interval; [assumption|].
      apply Nat.max_lub; apply countDecision_le.
  - intros r rs Ha Hr.
    rewrite computeAgreement_unfold by discriminate.
    rewrite !countDecision_cons.
    destruct (string_dec (decision r) "approved"); [congruence|].
    destruct (string_dec (decision r) "rejected"); [congruence|].
    cbn [Nat.add List.length].
    now apply Qmake_of_nat.
  - vm_compute. reflexivity.
Qed.

(** The ratio of C3 at the list of a run with one "pending" and one
    "approved" entry. *)
Lemma computeAgreement_is_majority_ratio_witness :
  [withDecision "pending"; withDecision "approved"] <> [] /\
  (computeAgreement [withDecision "pending"; withDecision "approved"]
     == agreementRatio [withDecision "pending"; withDecision "approved"])%Q /\
  (computeAgreement [withDecision "pending"; withDecision "approved"]
     == 1 # 2)%Q.
Proof.
  assert (Hne : [withDecision "pending"; withDecision "approved"] <> [])
    by discriminate.
  destruct computeAgreement_is_majority_ratio as [_ [Hratio _]].
  destruct (Hratio _ Hne) as [_ [Hspec _]].
  split; [exact Hne|]. split; [exact Hspec|].
  vm_compute. reflexivity.
Defined.

(** C4, as stated, fails: one "pending" entry shares its decision with
    every entry of its list, and the agreement is 0. *)
Lemma computeAgreement_all_pending_not_one :
  [withDecision "pending"] <> [] /\
  Forall (fun r => decision r = "pending") [withDecision "pending"] /\
  computeAgreement [withDecision "pending"] = 0%Q /\
  ~ (computeAgreement [withDecision "pending"] == 1)%Q.
Proof.
  split; [discriminate|]. split; [repeat constructor|].
  split; [reflexivity|]. vm_compute. discriminate.
Qed.

Lemma countDecision_all_same (d d' : string) (rs : list StrategyResult) :
  Forall (fun r => decision r = d) rs ->
  countDecision d' rs = if string_dec d d' then List.length rs else 0.
Proof.
  induction 1 as [|r rs Hr _ IH]; [now destruct (string_dec d d')|].
  rewrite countDecision_cons, IH, Hr.
  destruct (string_dec d d'); reflexivity.
Qed.

(** C4 (amended). N >= 1 entries that all share the decision "approved", or
    all share "rejected", have agreement 1; N >= 1 entries that all share
    any other decision have agreement 0. *)
Theorem computeAgreement_all_same (d : string) (rs : list StrategyResult) :
  rs <> [] ->
  Forall (fun r => decision r = d) rs ->
  (d = "approved" \/ d = "rejected" -> (computeAgreement rs == 1)%Q) /\
  (d <> "approved" -> d <> "rejected" -> (computeAgreement rs == 0)%Q).
Proof.
  intros Hne Hall.
  assert (Hlen : List.length rs <> 0) by (destruct rs; simpl; congruence).
  rewrite (computeAgreement_unfold rs Hne).
  rewrite !(countDecision_all_same d _ rs Hall).
  split.
  - intros [-> | ->]; simpl;
      rewrite ?Nat.max_0_r, ?Nat.max_0_l; now apply Qmake_same.
  - intros Ha Hr.
    destruct (string_dec d "approved"); [congruence|].
    destruct (string_dec d "rejected"); [congruence|].
    reflexivity.
Qed.

(** C4 (amended) at two "rejected" entries. *)
Lemma computeAgreement_all_same_witness :
  (computeAgreement [withDecision "rejected"; withDecision "rejected"] == 1)%Q.
Proof.
  refine (proj1 (computeAgreement_all_same "rejected"
                   [withDecision "rejected"; withDecision "rejected"] _ _) _).
  - discriminate.
  - repeat constructor.
  - right; reflexivity.
Defined.

End Agreement.

(* ------------------------------------------------------------------------- *)
(** ** How a run unfolds *)

Section RunLemmas.

Context {G : Type}.
Variable call : G -> string -> Args -> G * (Thrown + Json).
Variable zodMessage : string -> Json -> string.

Local Notation answerOf := (answer call zodMessage).
Local Notation outcomes := (voteOutcomes call zodMessage).
Local Notation gatewayAfter := (gatewayAfterVotes call zodMessage).
Local Notation run := (runFrom call zodMessage).
Local Notation assembled := (assembled call zodMessage).

(** A call followed by [parse] is one validated answer, logged. *)
Lemma call_then_parse {A : Type} (tool : string)
  (schema : option Json -> option A) (args : Args) (g : G)
  (issued : list Call) :
  bind (callTool call tool args) (parse zodMessage tool schema) (g, issued)
  = ((fst (validated call zodMessage tool schema args g),
      (issued ++ [(tool, args)])%list),
     snd (validated call zodMessage tool schema args g)).
Proof.
  unfold bind, callTool, parse, validated.
  destruct (call g tool args) as [g' [e | raw]]; simpl; [reflexivity|].
  destruct (schema (Some raw)); reflexivity.
Qed.

Lemma voteWithStrategy_run (proposal : string) (s : VotingStrategy) (g : G)
  (issued : list Call) :
  voteWithStrategy call zodMessage proposal s (g, issued)
  = ((fst (answerOf VoteResponseSchema (voteCall proposal s) g),
      (issued ++ [voteCall proposal s])%list),
     snd (answerOf VoteResponseSchema (voteCall proposal s) g)).
Proof.
  unfold voteWithStrategy. now rewrite call_then_parse.
Qed.

(** The loop with its two arrays is: collect the outcomes, then split. *)
Lemma voteLoop_run (proposal : string) (todo : list VotingStrategy) :
  forall (acc : Tally) (g : G) (issued : list Call),
    voteLoop call zodMessage proposal todo acc (g, issued)
    = ((gatewayAfter proposal todo g,
        (issued ++ map (voteCall proposal) todo)%list),
       inr ((fst acc ++ successesOf (outcomes proposal todo g))%list,
            (snd acc ++ failuresOf (outcomes proposal todo g))%list)).
Proof.
  induction todo as [|s rest IH]; intros acc g issued.
  - simpl. unfold ret. rewrite !app_nil_r. now destruct acc.
  - cbn [voteLoop]. unfold bind at 1, voteStep, tryCatch.
    unfold bind at 1. rewrite voteWithStrategy_run.
    cbn [voteOutcomes gatewayAfterVotes map].
    destruct (answer call zodMessage VoteResponseSchema (voteCall proposal s) g)
      as [g' [e | v]]; cbn [fst snd ret]; rewrite IH; cbn [fst snd successesOf failuresOf];
      rewrite <- !app_assoc; reflexivity.
Qed.

Lemma delegateTask_run (config : ShowdownConfig) (g : G)
  (issued : list Call) :
  delegateTask call zodMessage (task config)
    (option_map capabilityName (preferredCapability config)) (g, issued)
  = ((fst (answerOf DelegateResponseSchema (delegateCall config) g),
      (issued ++ [delegateCall config])%list),
     snd (answerOf DelegateResponseSchema (delegateCall config) g)).
Proof.
  unfold delegateTask. rewrite call_then_parse.
  unfold answer, delegateCall.
  destruct (preferredCapability config); reflexivity.
Qed.

Lemma createExpert_run (role : string) (g : G) (issued : list Call) :
  createExpert call zodMessage role (g, issued)
  = ((fst (answerOf CreateExpertResponseSchema (createCall role) g),
      (issued ++ [createCall role])%list),
     snd (answerOf CreateExpertResponseSchema (createCall role) g)).
Proof.
  unfold createExpert. now rewrite call_then_parse.
Qed.

Lemma executeExpert_run (expertId prompt : string) (g : G)
  (issued : list Call) :
  executeExpert call zodMessage expertId prompt (g, issued)
  = ((fst (answerOf ExecuteExpertResponseSchema
             (executeCall expertId prompt) g),
      (issued ++ [executeCall expertId prompt])%list),
     snd (answerOf ExecuteExpertResponseSchema
            (executeCall expertId prompt) g)).
Proof.
  unfold executeExpert. now rewrite call_then_parse.
Qed.

(** A validated call fails in one of two ways: the gateway throws, or it
    returns data the schema rejects and [parse] throws the [ZodError]. *)
Lemma answer_fails_iff {A : Type} (schema : option Json -> option A)
  (c : Call) (g g' : G) (e : Thrown) :
  answerOf schema c g = (g', inl e) <->
  call g (fst c) (snd c) = (g', inl e) \/
  exists raw,
    call g (fst c) (snd c) = (g', inr raw) /\
    schema (Some raw) = None /\
    e = JsError (zodMessage (fst c) raw).
Proof.
  unfold answer, validated.
  destruct (call g (fst c) (snd c)) as [g0 [e0 | raw]].
  - split.
    + intros H. injection H as -> ->. now left.
    + intros [H | (raw & H & _)]; [now injection H as -> -> | discriminate].
  - destruct (schema (Some raw)) as [a |] eqn:Hs; split.
    + discriminate.
    + intros [H | (raw' & H & Hnone & _)]; [discriminate|].
      injection H as _ <-. congruence.
    + intros H. injection H as -> <-. right. now exists raw.
    + intros [H | (raw' & H & _ & ->)]; [discriminate|].
      now injection H as -> ->.
Qed.

Lemma answer_succeeds_iff {A : Type} (schema : option Json -> option A)
  (c : Call) (g g' : G) (a : A) :
  answerOf schema c g = (g', inr a) <->
  exists raw,
    call g (fst c) (snd c) = (g', inr raw) /\ schema (Some raw) = Some a.
Proof.
  unfold answer, validated.
  destruct (call g (fst c) (snd c)) as [g0 [e0 | raw]].
  - split; [discriminate | intros (raw & H & _); discriminate].
  - destruct (schema (Some raw)) as [a0 |] eqn:Hs; split.
    + intros H. injection H as -> ->. now exists raw.
    + intros (raw' & H & Hs'). injection H as -> <-. congruence.
    + discriminate.
    + intros (raw' & H & Hs'). injection H as _ <-. congruence.
Qed.

(** A run whose stages 1-3 succeed returns, having issued the three calls
    and then one voting call per configured strategy. *)
Lemma run_success (g : G) (config : ShowdownConfig) (d : DelegateResponse)
  (x : CreateExpertResponse) (er : ExecuteExpertResponse) (g3 : G) :
  StagesSucceed call zodMessage g config d x er g3 ->
  run g config
  = ((gatewayAfter (buildProposal d er) (configuredStrategies config) g3,
      delegateCall config
        :: createCall (requestedRole config)
        :: executeCall (ce_expertId x) (expertTaskText config d)
        :: map (voteCall (buildProposal d er)) (configuredStrategies config)),
     inr (assembled config d x er g3)).
Proof.
  intros (g1 & g2 & H1 & H2 & H3).
  unfold runFrom, runShowdown.
  unfold bind at 1. rewrite delegateTask_run. rewrite H1.
  cbn [fst snd]. unfold bind at 1. rewrite createExpert_run.
  fold (requestedRole config). rewrite H2.
  cbn [fst snd]. unfold bind at 1. rewrite executeExpert_run.
  rewrite H3. cbn [fst snd].
  unfold bind at 1. fold (configuredStrategies config).
  rewrite voteLoop_run. reflexivity.
Qed.

(** A run in which one of stages 1-3 fails throws that failure, having
    issued no voting call. *)
Lemma run_failure (g : G) (config : ShowdownConfig) (e : Thrown) :
  StageFails call zodMessage g config e ->
  exists (g' : G) (issued : list Call),
    run g config = ((g', issued), inl e) /\
    existsb isVoteCall issued = false /\
    List.length issued <= 3.
Proof.
  intros [(g1 & H1) | [(g1 & d & g2 & H1 & H2)
                      | (g1 & d & g2 & x & g3 & H1 & H2 & H3)]];
    unfold runFrom, runShowdown;
    unfold bind at 1; rewrite delegateTask_run;  rewrite H1;
    cbn [fst snd].
  - exists g1, [delegateCall config]. repeat split; simpl; lia.
  - unfold bind at 1. rewrite createExpert_run.
    fold (requestedRole config). rewrite H2. cbn [fst snd].
    exists g2, [delegateCall config; createCall (requestedRole config)].
    repeat split; simpl; lia.
  - unfold bind at 1. rewrite createExpert_run.
    fold (requestedRole config). rewrite H2. cbn [fst snd].
    unfold bind at 1. rewrite executeExpert_run.
    rewrite H3. cbn [fst snd].
    exists g3, [delegateCall config; createCall (requestedRole config);
                executeCall (ce_expertId x) (expertTaskText config d)].
    repeat split; simpl; lia.
Qed.

(** Every run is of one of the two kinds. *)
Lemma run_cases (g : G) (config : ShowdownConfig) :
  (exists d x er g3, StagesSucceed call zodMessage g config d x er g3) \/
  (exists e, StageFails call zodMessage g config e).
Proof.
  unfold StagesSucceed, StageFails.
  destruct (answer call zodMessage DelegateResponseSchema
              (delegateCall config) g) as [g1 [e | d]] eqn:H1.
  { right. exists e. left. now exists g1. }
  destruct (answer call zodMessage CreateExpertResponseSchema
              (createCall (requestedRole config)) g1) as [g2 [e | x]] eqn:H2.
  { right. exists e. right; left. now exists g1, d, g2. }
  destruct (answer call zodMessage ExecuteExpertResponseSchema
              (executeCall (ce_expertId x) (expertTaskText config d)) g2)
    as [g3 [e | er]] eqn:H3.
  { right. exists e. right; right. now exists g1, d, g2, x, g3. }
  left. exists d, x, er, g3, g1, g2. auto.
Qed.

(** A run that returns is a run whose stages 1-3 succeeded. *)
Lemma run_returns (g : G) (config : ShowdownConfig) (st : St G)
  (r : ShowdownResult) :
  run g config = (st, inr r) ->
  exists d x er g3,
    StagesSucceed call zodMessage g config d x er g3 /\
    r = assembled config d x er g3 /\
    snd st =
      delegateCall config
        :: createCall (requestedRole config)
        :: executeCall (ce_expertId x) (expertTaskText config d)
        :: map (voteCall (buildProposal d er)) (configuredStrategies config).
Proof.
  intros Hrun.
  destruct (run_cases g config) as [(d & x & er & g3 & Hok) | (e & Hfail)].
  - exists d, x, er, g3. split; [exact Hok|].
    rewrite (run_success _ _ _ _ _ _ Hok) in Hrun.
    injection Hrun as <- <-. split; reflexivity.
  - destruct (run_failure _ _ _ Hfail) as (g' & issued & Hrun' & _).
    rewrite Hrun' in Hrun. discriminate.
Qed.

End RunLemmas.

(* ------------------------------------------------------------------------- *)
(** ** Splitting the vote outcomes *)

Section Outcomes.

Context {G : Type}.
Variable call : G -> string -> Args -> G * (Thrown + Json).
Variable zodMessage : string -> Json -> string.

Lemma voteOutcomes_strategies (proposal : string)
  (todo : list VotingStrategy) :
  forall g : G, map fst (voteOutcomes call zodMessage proposal todo g) = todo.
Proof.
  induction todo as [|s rest IH]; intros g; simpl; [reflexivity|].
  destruct (answer call zodMessage VoteResponseSchema (voteCall proposal s) g)
    as [g' o].
  simpl. now rewrite IH.
Qed.

Lemma voteOutcomes_length (proposal : string) (todo : list VotingStrategy)
  (g : G) :
  List.length (voteOutcomes call zodMessage proposal todo g)
  = List.length todo.
Proof.
  rewrite <- (voteOutcomes_strategies proposal todo g) at 2.
  now rewrite length_map.
Qed.

Lemma split_lengths (l : list (VotingStrategy * (Thrown + VoteResponse))) :
  List.length (successesOf l) + List.length (failuresOf l) = List.length l.
Proof.
  induction l as [|[s [e | v]] l IH]; simpl; lia.
Qed.

Lemma all_failures (l : list (VotingStrategy * (Thrown + VoteResponse))) :
  forallb isFailure l = true ->
  successesOf l = [] /\ List.length (failuresOf l) = List.length l.
Proof.
  induction l as [|[s [e | v]] l IH]; simpl; intros H.
  - now split.
  - destruct (IH H) as [-> ->]. now split.
  - discriminate.
Qed.

Lemma no_failures (l : list (VotingStrategy * (Thrown + VoteResponse))) :
  forallb (fun o => negb (isFailure o)) l = true ->
  failuresOf l = [] /\ List.length (successesOf l) = List.length l.
Proof.
  induction l as [|[s [e | v]] l IH]; simpl; intros H.
  - now split.
  - discriminate.
  - destruct (IH H) as [-> ->]. now split.
Qed.

Lemma failure_recorded (l : list (VotingStrategy * (Thrown + VoteResponse)))
  (s : VotingStrategy) (e : Thrown) :
  In (s, inl e) l ->
  In (strategyName s ++ " vote failed: " ++ thrownMessage e) (failuresOf l).
Proof.
  induction l as [|[s' [e' | v]] l IH]; simpl; intros H.
  - contradiction.
  - destruct H as [H | H]; [injection H as -> ->; now left | right; auto].
  - destruct H as [H | H]; [discriminate | auto].
Qed.

Lemma voteCalls_all_votes (proposal : string) (todo : list VotingStrategy) :
  filter isVoteCall (map (voteCall proposal) todo)
  = map (voteCall proposal) todo.
Proof.
  induction todo as [|s rest IH]; simpl; [reflexivity|]. now rewrite IH.
Qed.

Lemma voteCalls_tools (proposal : string) (todo : list VotingStrategy) :
  map fst (map (voteCall proposal) todo)
  = repeat "consensus_vote" (List.length todo).
Proof.
  induction todo as [|s rest IH]; [reflexivity|].
  cbn [map List.length repeat]. rewrite IH. reflexivity.
Qed.

End Outcomes.

(* ------------------------------------------------------------------------- *)
(** ** runShowdown *)

Section Showdown.

Context {G : Type}.
Variable call : G -> string -> Args -> G * (Thrown + Json).
Variable zodMessage : string -> Json -> string.

(** C1. Once stages 1-3 have succeeded the run returns a result, whatever
    the voting calls do: a voting call is issued for every configured
    strategy, in order; the successes are collected as strategy results and
    every failure [e] of strategy [s] as the error string
    "<s> vote failed: <message of e>"; and when every voting call fails the
    result has no strategy result, agreement 0 and one error string per
    strategy. *)
Theorem vote_failures_are_collected (g : G) (config : ShowdownConfig)
  (d : DelegateResponse) (x : CreateExpertResponse)
  (er : ExecuteExpertResponse) (g3 : G) :
  StagesSucceed call zodMessage g config d x er g3 ->
  let todo := configuredStrategies config in
  let outs := voteOutcomes call zodMessage (buildProposal d er) todo g3 in
  exists (st : St G) (r : ShowdownResult),
    runFrom call zodMessage g config = (st, inr r) /\
    map fst outs = todo /\
    filter isVoteCall (snd st) = map (voteCall (buildProposal d er)) todo /\
    strategyResults r = successesOf outs /\
    errors r = failuresOf outs /\
    (forall s e,
       In (s, inl e) outs ->
       In (strategyName s ++ " vote failed: " ++ thrownMessage e) (errors r)) /\
    (forallb isFailure outs = true ->
     strategyResults r = [] /\
     strategyAgreement r = 0%Q /\
     List.length (errors r) = List.length todo).
Proof.
  intros Hok todo outs.
  eexists; eexists. split; [exact (run_success call zodMessage _ _ _ _ _ _ Hok)|].
  cbn [snd strategyResults errors strategyAgreement assembled filter isVoteCall
       delegateCall createCall executeCall fst String.eqb Ascii.eqb Bool.eqb].
  fold todo. fold outs.
  split; [apply voteOutcomes_strategies|].
  split; [apply voteCalls_all_votes|].
  split; [reflexivity|]. split; [reflexivity|].
  split; [intros s e; apply failure_recorded|].
  intros Hall. destruct (all_failures outs Hall) as [Hs Hf].
  rewrite Hs, Hf. repeat split.
  unfold outs. apply voteOutcomes_length.
Qed.

(** C2. In the result of every run that returns, the number of strategy
    results plus the number of errors is the number of strategies
    attempted: the length of [config.strategies] when supplied, 5
    otherwise. *)
Theorem results_plus_errors (g : G) (config : ShowdownConfig) (st : St G)
  (r : ShowdownResult) :
  runFrom call zodMessage g config = (st, inr r) ->
  List.length (strategyResults r) + List.length (errors r)
  = match strategies config with
    | Some l => List.length l
    | None => 5
    end.
Proof.
  intros Hrun.
  destruct (run_returns call zodMessage g config st r Hrun)
    as (d & x & er & g3 & _ & -> & _).
  cbn [strategyResults errors assembled].
  rewrite split_lengths, voteOutcomes_length.
  unfold configuredStrategies. now destruct (strategies config).
Qed.

(** C5. A run that returns has issued exactly: the routing call, the
    creation call, the execution call, then one voting call per configured
    strategy in the configured order.  Without [config.strategies] these are
    five voting calls carrying simple_majority, supermajority, unanimous,
    proof_of_learning, higher_order; with two configured strategies they
    are two, and there are two strategy results when neither fails. *)
Theorem calls_in_order (g : G) (config : ShowdownConfig) (st : St G)
  (r : ShowdownResult) :
  runFrom call zodMessage g config = (st, inr r) ->
  exists d x er g3,
    StagesSucceed call zodMessage g config d x er g3 /\
    snd st =
      delegateCall config
        :: createCall (requestedRole config)
        :: executeCall (ce_expertId x) (expertTaskText config d)
        :: map (voteCall (buildProposal d er)) (configuredStrategies config) /\
    map fst (snd st) =
      "delegate_to_model" :: "create_expert" :: "execute_expert"
        :: repeat "consensus_vote" (List.length (configuredStrategies config)) /\
    (strategies config = None ->
     map (fun c => getField "strategy" (snd c)) (skipn 3 (snd st)) =
       [ Some (JStr "simple_majority"); Some (JStr "supermajority");
         Some (JStr "unanimous"); Some (JStr "proof_of_learning");
         Some (JStr "higher_order") ]) /\
    (forall a b,
       strategies config = Some [a; b] ->
       skipn 3 (snd st) =
         [ voteCall (buildProposal d er) a; voteCall (buildProposal d er) b ] /\
       (forallb (fun o => negb (isFailure o))
          (voteOutcomes call zodMessage (buildProposal d er) [a; b] g3) = true ->
        List.length (strategyResults r) = 2)).
Proof.
  intros Hrun.
  destruct (run_returns call zodMessage g config st r Hrun)
    as (d & x & er & g3 & Hok & -> & Htrace).
  exists d, x, er, g3. split; [exact Hok|]. split; [exact Htrace|].
  rewrite Htrace. cbn [map fst skipn delegateCall createCall executeCall].
  split; [|split].
  - do 3 f_equal. apply voteCalls_tools.
  - unfold configuredStrategies. intros ->. reflexivity.
  - intros a b Hs.
    assert (Hcfg : configuredStrategies config = [a; b])
      by (unfold configuredStrategies; now rewrite Hs).
    rewrite Hcfg. split; [reflexivity|].
    intros Hall. cbn [strategyResults assembled]. rewrite Hcfg.
    destruct (no_failures _ Hall) as [_ ->].
    apply voteOutcomes_length.
Qed.

(** C8. When the routing call, the creation call or the execution call
    throws, or returns data its schema rejects, the run throws that very
    failure: there is no result, and no voting call has been issued. *)
Theorem fatal_failure_propagates (g : G) (config : ShowdownConfig)
  (e : Thrown) :
  StageFails call zodMessage g config e ->
  exists st : St G,
    runFrom call zodMessage g config = (st, inl e) /\
    filter isVoteCall (snd st) = [].
Proof.
  intros Hfail.
  destruct (run_failure call zodMessage g config e Hfail)
    as (g' & issued & Hrun & Hnone & _).
  exists (g', issued). split; [exact Hrun|].
  cbn [snd]. clear Hrun.
  induction issued as [|c l IH]; [reflexivity|].
  simpl in Hnone |- *. apply orb_false_iff in Hnone as [-> Hl]. auto.
Qed.

Lemma strategyName_injective (s t : VotingStrategy) :
  strategyName s = strategyName t -> s = t.
Proof.
  destruct s, t; simpl; intros H; try reflexivity; discriminate.
Qed.

Lemma successes_strategies
  (l : list (VotingStrategy * (Thrown + VoteResponse))) :
  (forall s v, In (s, inr v) l -> vr_strategy v = strategyName s) ->
  NoDup (map fst l) ->
  NoDup (map strategy (successesOf l)) /\
  (forall n, In n (map strategy (successesOf l)) ->
             exists s, In s (map fst l) /\ n = strategyName s).
Proof.
  induction l as [|[s [e | v]] l IH]; simpl; intros Hecho Hnd.
  - split; [constructor | contradiction].
  - inversion Hnd as [|? ? Hnotin Hnd']; subst.
    destruct IH as [IH1 IH2]; [intros; apply Hecho; auto | assumption |].
    split; [assumption|].
    intros n Hn. destruct (IH2 n Hn) as (t & Ht & ->). eauto.
  - inversion Hnd as [|? ? Hnotin Hnd']; subst.
    destruct IH as [IH1 IH2]; [intros; apply Hecho; auto | assumption |].
    assert (Hv : vr_strategy v = strategyName s) by (apply Hecho; now left).
    split.
    + constructor; [|assumption].
      cbn [strategy toStrategyResult]. rewrite Hv. intros Hin.
      destruct (IH2 _ Hin) as (t & Ht & Heq).
      apply strategyName_injective in Heq. subst t. contradiction.
    + intros n [<- | Hn].
      * exists s. split; [now left | exact Hv].
      * destruct (IH2 n Hn) as (t & Ht & ->). eauto.
Qed.

(** C9 (amended). In the result of a run that returns, the strategy values
    of the strategy results are pairwise distinct provided the configured
    strategies are pairwise distinct and every accepted voting response
    carries the strategy it was asked for. *)
Theorem strategies_distinct_when_echoed (g : G) (config : ShowdownConfig)
  (d : DelegateResponse) (x : CreateExpertResponse)
  (er : ExecuteExpertResponse) (g3 : G) :
  StagesSucceed call zodMessage g config d x er g3 ->
  NoDup (configuredStrategies config) ->
  (forall s v,
     In (s, inr v)
        (voteOutcomes call zodMessage (buildProposal d er)
           (configuredStrategies config) g3) ->
     vr_strategy v = strategyName s) ->
  exists (st : St G) (r : ShowdownResult),
    runFrom call zodMessage g config = (st, inr r) /\
    NoDup (map strategy (strategyResults r)).
Proof.
  intros Hok Hnd Hecho.
  eexists; eexists. split; [exact (run_success call zodMessage _ _ _ _ _ _ Hok)|].
  cbn [strategyResults assembled].
  apply successes_strategies; [exact Hecho|].
  now rewrite voteOutcomes_strategies.
Qed.

(** C10. The expert role of the evaluation is the role the creation
    response carries, whatever role was asked for. *)
Theorem evaluation_role_from_response (g : G) (config : ShowdownConfig)
  (st : St G) (r : ShowdownResult) :
  runFrom call zodMessage g config = (st, inr r) ->
  exists g1 d g2 x,
    answer call zodMessage DelegateResponseSchema (delegateCall config) g
      = (g1, inr d) /\
    answer call zodMessage CreateExpertResponseSchema
      (createCall (requestedRole config)) g1 = (g2, inr x) /\
    expertRole (evaluation r) = ce_role x.
Proof.
  intros Hrun.
  destruct (run_returns call zodMessage g config st r Hrun)
    as (d & x & er & g3 & (g1 & g2 & H1 & H2 & _) & -> & _).
  exists g1, d, g2, x. auto.
Qed.

End Showdown.

(* ------------------------------------------------------------------------- *)
(** ** The pipeline tests, as runs of the model *)

(** C1 on the gateway whose third vote throws, and on a gateway whose every
    vote throws. *)
Lemma vote_failures_are_collected_witness :
  (exists st r,
     runFrom flakyCaller zodText 0 (taskOnly "Test") = (st, inr r) /\
     errors r = ["unanimous vote failed: vote timeout"] /\
     List.length (strategyResults r) = 4) /\
  (exists st r,
     runFrom (mockCaller noVoteResponses) zodText tt (taskOnly "Test")
       = (st, inr r) /\
     strategyResults r = [] /\
     strategyAgreement r = 0%Q /\
     List.length (errors r) = 5).
Proof.
  split.
  - assert (Hok : StagesSucceed flakyCaller zodText 0 (taskOnly "Test")
                    codexDelegation codeExpert codeExecution 0)
      by (exists 0, 0; split; [|split]; vm_compute; reflexivity).
    destruct (vote_failures_are_collected flakyCaller zodText _ _ _ _ _ _ Hok)
      as (st & r & Hrun & _ & _ & Hsr & Herr & _).
    exists st, r. split; [exact Hrun|].
    rewrite Herr, Hsr. split; vm_compute; reflexivity.
  - assert (Hok : StagesSucceed (mockCaller noVoteResponses) zodText tt
                    (taskOnly "Test") codexDelegation codeExpert
                    codeExecution tt)
      by (exists tt, tt; split; [|split]; vm_compute; reflexivity).
    destruct (vote_failures_are_collected (mockCaller noVoteResponses) zodText
                _ _ _ _ _ _ Hok)
      as (st & r & Hrun & _ & _ & _ & _ & _ & Hall).
    exists st, r. split; [exact Hrun|].
    apply Hall. vm_compute. reflexivity.
Defined.

(** C2 on the test run with one failing vote: 4 + 1 = 5. *)
Lemma results_plus_errors_witness :
  exists st r,
    runFrom flakyCaller zodText 0 (taskOnly "Test") = (st, inr r) /\
    List.length (strategyResults r) = 4 /\
    List.length (errors r) = 1 /\
    List.length (strategyResults r) + List.length (errors r) = 5.
Proof.
  eexists; eexists.
  assert (Hrun : runFrom flakyCaller zodText 0 (taskOnly "Test")
                 = (fst (runFrom flakyCaller zodText 0 (taskOnly "Test")),
                    inr (assembled flakyCaller zodText (taskOnly "Test")
                           codexDelegation codeExpert codeExecution 0)))
    by (vm_compute; reflexivity).
  split; [exact Hrun|].
  split; [vm_compute; reflexivity|].
  split; [vm_compute; reflexivity|].
  exact (results_plus_errors flakyCaller zodText _ _ _ _ Hrun).
Defined.

(** C5 on the test run "chains all 4 tools across 5 strategies" and on the
    run with the two-strategy subset. *)
Lemma calls_in_order_witness :
  (exists st r,
     runFrom strategyAwareCaller zodText tt fullConfig = (st, inr r) /\
     map fst (snd st) =
       [ "delegate_to_model"; "create_expert"; "execute_expert";
         "consensus_vote"; "consensus_vote"; "consensus_vote";
         "consensus_vote"; "consensus_vote" ] /\
     map (fun c => getField "strategy" (snd c)) (skipn 3 (snd st)) =
       [ Some (JStr "simple_majority"); Some (JStr "supermajority");
         Some (JStr "unanimous"); Some (JStr "proof_of_learning");
         Some (JStr "higher_order") ]) /\
  (exists st r,
     runFrom strategyAwareCaller zodText tt subsetConfig = (st, inr r) /\
     List.length (skipn 3 (snd st)) = 2 /\
     List.length (strategyResults r) = 2).
Proof.
  split.
  - assert (Hrun : runFrom strategyAwareCaller zodText tt fullConfig
             = (fst (runFrom strategyAwareCaller zodText tt fullConfig),
                inr (assembled strategyAwareCaller zodText fullConfig
                       codexDelegation codeExpert codeExecution tt)))
      by (vm_compute; reflexivity).
    destruct (calls_in_order strategyAwareCaller zodText _ _ _ _ Hrun)
      as (d & x & er & g3 & _ & _ & Htools & Hdefault & _).
    eexists; eexists. split; [exact Hrun|].
    split; [exact Htools | exact (Hdefault eq_refl)].
  - assert (Hrun : runFrom strategyAwareCaller zodText tt subsetConfig
             = (fst (runFrom strategyAwareCaller zodText tt subsetConfig),
                inr (assembled strategyAwareCaller zodText subsetConfig
                       codexDelegation codeExpert codeExecution tt)))
      by (vm_compute; reflexivity).
    destruct (calls_in_order strategyAwareCaller zodText _ _ _ _ Hrun)
      as (d & x & er & g3 & _ & _ & _ & _ & Htwo).
    destruct (Htwo simple_majority unanimous eq_refl) as [Hcalls _].
    eexists; eexists. split; [exact Hrun|].
    split; [now rewrite Hcalls | vm_compute; reflexivity].
Defined.

(** C8 on a gateway that knows no tool (the routing call throws), and on one
    whose creation response lacks its role (the schema rejects it). *)
Lemma fatal_failure_propagates_witness :
  (exists st,
     runFrom (mockCaller []) zodText tt (taskOnly "Test")
       = (st, inl (JsError "Unexpected tool: delegate_to_model")) /\
     filter isVoteCall (snd st) = []) /\
  (exists st,
     runFrom (mockCaller badCreateResponses) zodText tt (taskOnly "Test")
       = (st, inl (JsError "invalid create_expert response")) /\
     filter isVoteCall (snd st) = []).
Proof.
  split.
  - apply (fatal_failure_propagates (mockCaller []) zodText).
    left. exists tt. vm_compute. reflexivity.
  - apply (fatal_failure_propagates (mockCaller badCreateResponses) zodText).
    right; left. exists tt, codexDelegation, tt.
    split; vm_compute; reflexivity.
Defined.

(** C9, as stated, fails on the gateway of the test "captures vote errors
    without stopping": it answers every vote with the simple_majority mock,
    so the four strategy results all carry that strategy. *)
Lemma strategy_values_repeat :
  exists st r,
    runFrom flakyCaller zodText 0 (taskOnly "Test") = (st, inr r) /\
    map strategy (strategyResults r) =
      [ "simple_majority"; "simple_majority"; "simple_majority";
        "simple_majority" ] /\
    ~ NoDup (map strategy (strategyResults r)).
Proof.
  eexists; eexists. split; [vm_compute; reflexivity|].
  split; [reflexivity|].
  cbn [strategyResults map strategy]. intros Hnd.
  inversion Hnd as [|? ? Hnotin _]. apply Hnotin. now left.
Qed.

(** C9 (amended) on the strategy-aware gateway, which answers each vote
    with the mock of the requested strategy. *)
Lemma strategies_distinct_when_echoed_witness :
  exists st r,
    runFrom strategyAwareCaller zodText tt (taskOnly "Test") = (st, inr r) /\
    NoDup (map strategy (strategyResults r)).
Proof.
  apply (strategies_distinct_when_echoed strategyAwareCaller zodText tt
           (taskOnly "Test") codexDelegation codeExpert codeExecution tt).
  - exists tt, tt. split; [|split]; vm_compute; reflexivity.
  - repeat constructor; simpl; intuition discriminate.
  - intros s v Hin. vm_compute in Hin.
    repeat (destruct Hin as [Hin | Hin];
            [injection Hin as <- <-; reflexivity|]).
    contradiction.
Defined.

(** C10 on the test run "infers expert role from task": security_expert is
    asked for, the mock answers code_expert, and that is the evaluation's
    role. *)
Lemma evaluation_role_from_response_witness :
  exists st r,
    runFrom strategyAwareCaller zodText tt
      (taskOnly "Security audit of auth module") = (st, inr r) /\
    requestedRole (taskOnly "Security audit of auth module")
      = "security_expert" /\
    expertRole (evaluation r) = "code_expert".
Proof.
  assert (Hrun :
    runFrom strategyAwareCaller zodText tt
      (taskOnly "Security audit of auth module")
    = (fst (runFrom strategyAwareCaller zodText tt
              (taskOnly "Security audit of auth module")),
       inr (assembled strategyAwareCaller zodText
              (taskOnly "Security audit of auth module")
              codexDelegation codeExpert codeExecution tt)))
    by (vm_compute; reflexivity).
  destruct (evaluation_role_from_response strategyAwareCaller zodText
              _ _ _ _ Hrun) as (g1 & d & g2 & x & _ & Hx & Hrole).
  eexists; eexists. split; [exact Hrun|].
  split; [vm_compute; reflexivity|].
  rewrite Hrole. vm_compute in Hx. now injection Hx as _ <-.
Defined.

(* ------------------------------------------------------------------------- *)
(** ** Role inference *)

Section RoleInference.

Context {G : Type}.
Variable call : G -> string -> Args -> G * (Thrown + Json).
Variable zodMessage : string -> Json -> string.

(** Once the routing stage has succeeded, the second call of the run is the
    creation call, carrying the requested role. *)
Lemma create_call_role (g : G) (config : ShowdownConfig) (g1 : G)
  (d : DelegateResponse) :
  answer call zodMessage DelegateResponseSchema (delegateCall config) g
    = (g1, inr d) ->
  nth_error (snd (fst (runFrom call zodMessage g config))) 1
  = Some (createCall (requestedRole config)).
Proof.
  intros H1. unfold runFrom, runShowdown.
  unfold bind at 1. rewrite delegateTask_run, H1. cbn [fst snd].
  unfold bind at 1. rewrite createExpert_run. fold (requestedRole config).
  destruct (answer call zodMessage CreateExpertResponseSchema
              (createCall (requestedRole config)) g1) as [g2 [e | x]];
    cbn [fst snd]; [reflexivity|].
  unfold bind at 1. rewrite executeExpert_run.
  destruct (answer call zodMessage ExecuteExpertResponseSchema
              (executeCall (ce_expertId x) (expertTaskText config d)) g2)
    as [g3 [e | er]]; cbn [fst snd]; [reflexivity|].
  unfold bind at 1. rewrite voteLoop_run. reflexivity.
Qed.

End RoleInference.

Lemma firstMatch_none (rules : list (list string * string))
  (fallback text : string) :
  (forall kws role k, In (kws, role) rules -> In k kws ->
                      includes k text = false) ->
  firstMatch rules fallback text = fallback.
Proof.
  induction rules as [|[kws role] rules IH]; intros Hnone; [reflexivity|].
  cbn [firstMatch].
  assert (Hk : existsb (fun k => includes k text) kws = false).
  { apply not_true_is_false. intros H.
    apply existsb_exists in H as (k & Hin & Hk).
    rewrite (Hnone kws role k) in Hk; [discriminate | now left | exact Hin]. }
  rewrite Hk. apply IH. intros kws' role' k Hin. apply (Hnone kws' role' k).
  now right.
Qed.

(** C7. Role inference is the first-match search of the lower-cased task in
    the ordered rule table, with code_expert as the fallback; a keyword
    matches exactly when it occurs in the lower-cased text, so the result
    does not depend on the case of the task; the three cases of the
    specification hold; and the role runShowdown asks the creation call for
    is [config.expertRole] when supplied and the inferred role otherwise. *)
Theorem role_inference_first_match :
  (forall task,
     inferExpertRole task
     = firstMatch roleRules "code_expert" (toLowerCase task)) /\
  (forall keyword text, includes keyword text = true <-> Contains keyword text) /\
  (forall t1 t2,
     toLowerCase t1 = toLowerCase t2 -> inferExpertRole t1 = inferExpertRole t2) /\
  (forall task, inferExpertRole (toLowerCase task) = inferExpertRole task) /\
  inferExpertRole "Security audit of auth module" = "security_expert" /\
  (forall task,
     (forall kws role k, In (kws, role) roleRules -> In k kws ->
                         ~ Contains k (toLowerCase task)) ->
     inferExpertRole task = "code_expert") /\
  inferExpertRole "Implement a rate limiter with sliding window"
    = "code_expert" /\
  (forall task,
     Contains "security" (toLowerCase task) ->
     Contains "test" (toLowerCase task) ->
     inferExpertRole task = "security_expert") /\
  inferExpertRole "Test the SECURITY of the login flow" = "security_expert" /\
  (forall (G : Type) (call : G -> string -> Args -> G * (Thrown + Json))
          (zodMessage : string -> Json -> string)
          (g : G) (config : ShowdownConfig) (g1 : G) (d : DelegateResponse),
     answer call zodMessage DelegateResponseSchema (delegateCall config) g
       = (g1, inr d) ->
     nth_error (snd (fst (runFrom call zodMessage g config))) 1
     = Some ("create_expert",
             [("role",
               JStr match cfg_expertRole config with
                    | Some role => role
                    | None => inferExpertRole (task config)
                    end)])).
Proof.
  assert (Hspec : forall task,
             inferExpertRole task
             = firstMatch roleRules "code_expert" (toLowerCase task)).
  { intros task. unfold inferExpertRole. cbn [firstMatch roleRules existsb].
    rewrite !orb_false_r. reflexivity. }
  split; [exact Hspec|].
  split; [exact includes_iff|].
  split; [intros t1 t2 H; now rewrite !Hspec, H|].
  split; [intros task; now rewrite !Hspec, toLowerCase_idempotent|].
  split; [reflexivity|].
  split.
  { intros task Hnone. rewrite Hspec. apply firstMatch_none.
    intros kws role k Hin Hk. apply not_true_is_false.
    rewrite includes_iff. now apply (Hnone kws role k). }
  split; [reflexivity|].
  split.
  { intros task Hsec _. unfold inferExpertRole.
    apply includes_iff in Hsec. now rewrite Hsec. }
  split; [reflexivity|].
  intros G call zodMessage g config g1 d H1.
  exact (create_call_role call zodMessage g config g1 d H1).
Qed.

(** C7 on the test run "infers expert role from task", and on a
    configuration that supplies the role. *)
Lemma role_inference_first_match_witness :
  inferExpertRole "SECURITY AUDIT" = inferExpertRole "security audit" /\
  nth_error
    (snd (fst (runFrom strategyAwareCaller zodText tt
                 (taskOnly "Security audit of auth module")))) 1
  = Some ("create_expert", [("role", JStr "security_expert")]) /\
  nth_error (snd (fst (runFrom strategyAwareCaller zodText tt fullConfig))) 1
  = Some ("create_expert", [("role", JStr "code_expert")]).
Proof.
  destruct role_inference_first_match
    as (_ & _ & Hcase & _ & _ & _ & _ & _ & _ & Hrun).
  split; [apply Hcase; reflexivity|].
  split.
  - apply (Hrun unit strategyAwareCaller zodText tt
             (taskOnly "Security audit of auth module") tt codexDelegation).
    vm_compute. reflexivity.
  - apply (Hrun unit strategyAwareCaller zodText tt fullConfig tt
             codexDelegation).
    vm_compute. reflexivity.
Defined.

(* ------------------------------------------------------------------------- *)
(** ** buildProposal *)

Section Proposal.

Lemma alternatives_joined_truthy (a : Alternative) (rest : list Alternative) :
  truthy (join ", " (map alternativeText (a :: rest))) = true.
Proof.
  assert (Ha : truthy (alternativeText a) = true)
    by (unfold alternativeText; now apply truthy_append_r).
  destruct rest as [|b rest]; [exact Ha|].
  cbn [map]. rewrite join_cons by discriminate.
  now apply truthy_append_l.
Qed.

(** The code's filter keeps the four head lines (the alternatives line when
    there is an alternative) and drops an empty output. *)
Lemma buildProposal_lines (d : DelegateResponse) (e : ExecuteExpertResponse) :
  buildProposal d e = proposalOmittingEmpty d e.
Proof.
  unfold buildProposal, proposalOmittingEmpty, headLines.
  destruct (alternatives d) as [|a rest] eqn:Halts.
  - cbn [map join truthy filter app String.append].
    destruct (output e) as [|c out]; reflexivity.
  - rewrite alternatives_joined_truthy.
    cbn [filter truthy String.append app].
    destruct (output e) as [|c out]; reflexivity.
Qed.

Lemma headLines_nonempty (d : DelegateResponse) (e : ExecuteExpertResponse) :
  headLines d e <> [].
Proof. unfold headLines. discriminate. Qed.

Lemma In_headLines_model (d : DelegateResponse) (e : ExecuteExpertResponse) :
  In ("Model recommendation: " ++ recommended_model d) (headLines d e).
Proof. unfold headLines. now left. Qed.

Lemma In_headLines_confidence (d : DelegateResponse)
  (e : ExecuteExpertResponse) :
  In ("Expert analysis (confidence: " ++ numberToString (confidence e) ++ "):")
     (headLines d e).
Proof.
  unfold headLines. apply in_or_app. right. apply in_or_app. right. now left.
Qed.

(** C6 (amended). buildProposal is the newline-joined list of: the model
    line, the reasoning line, the alternatives line ("model (score: N)"
    joined by ", ") when there is an alternative and no line otherwise, the
    confidence line, and the first 2000 characters of the output with
    nothing after them when the output is not empty and no line (and no
    newline) when it is empty.  So it contains the recommended model, the
    text "confidence: <confidence>" and the truncated output, and it is at
    most 2001 characters longer than its head. *)
Theorem buildProposal_structure (d : DelegateResponse)
  (e : ExecuteExpertResponse) :
  buildProposal d e =
    join newline
      (headLines d e ++
       match output e with
       | EmptyString => []
       | out => [ slice0 2000 out ]
       end)%list /\
  (output e <> EmptyString ->
   buildProposal d e = proposalHead d e ++ newline ++ slice0 2000 (output e)) /\
  (output e = EmptyString -> buildProposal d e = proposalHead d e) /\
  (alternatives d = [] ->
   headLines d e =
     [ "Model recommendation: " ++ recommended_model d;
       "Reasoning: " ++ reasoning d;
       "Expert analysis (confidence: "
         ++ numberToString (confidence e) ++ "):" ]) /\
  (alternatives d <> [] ->
   headLines d e =
     [ "Model recommendation: " ++ recommended_model d;
       "Reasoning: " ++ reasoning d;
       "Alternatives: " ++ join ", " (map alternativeText (alternatives d));
       "Expert analysis (confidence: "
         ++ numberToString (confidence e) ++ "):" ]) /\
  (String.length (output e) <= 2000 -> slice0 2000 (output e) = output e) /\
  String.length (slice0 2000 (output e)) <= 2000 /\
  (exists dropped, output e = slice0 2000 (output e) ++ dropped) /\
  Contains (recommended_model d) (buildProposal d e) /\
  Contains ("confidence: " ++ numberToString (confidence e))
    (buildProposal d e) /\
  Contains (slice0 2000 (output e)) (buildProposal d e) /\
  String.length (buildProposal d e) <= String.length (proposalHead d e) + 2001.
Proof.
  assert (Heq := buildProposal_lines d e).
  unfold proposalOmittingEmpty in Heq.
  assert (Hfull : output e <> EmptyString ->
                  buildProposal d e
                  = proposalHead d e ++ newline ++ slice0 2000 (output e)).
  { intros Hne. rewrite Heq.
    destruct (output e) as [|c out]; [congruence|].
    apply join_snoc, headLines_nonempty. }
  assert (Hempty : output e = EmptyString -> buildProposal d e = proposalHead d e).
  { intros Hout. rewrite Heq, Hout. now rewrite app_nil_r. }
  assert (Hin : forall line, In line (headLines d e) ->
                             Contains line (buildProposal d e)).
  { intros line Hline.
    destruct (string_dec (output e) EmptyString) as [Hout | Hout].
    - rewrite (Hempty Hout). now apply Contains_join.
    - rewrite (Hfull Hout). now apply Contains_append_l, Contains_join. }
  split; [exact Heq|]. split; [exact Hfull|]. split; [exact Hempty|].
  split; [intros Ha; unfold headLines; now rewrite Ha|].
  split.
  { intros Ha. unfold headLines.
    destruct (alternatives d); [congruence | reflexivity]. }
  split; [apply slice0_short|].
  split; [rewrite slice0_length; apply Nat.le_min_l|].
  split; [apply slice0_prefix|].
  split.
  { apply (Contains_trans _ ("Model recommendation: " ++ recommended_model d)).
    - apply Contains_append_r, Contains_refl.
    - apply Hin, In_headLines_model. }
  split.
  { eapply Contains_trans; [|apply Hin, In_headLines_confidence].
    exists "Expert analysis (", "):".
    rewrite !append_assoc. reflexivity. }
  split.
  { destruct (string_dec (output e) EmptyString) as [Hout | Hout].
    - rewrite Hout. exists EmptyString, (buildProposal d e). reflexivity.
    - rewrite (Hfull Hout).
      apply Contains_append_r, Contains_append_r, Contains_refl. }
  destruct (string_dec (output e) EmptyString) as [Hout | Hout].
  - rewrite (Hempty Hout). lia.
  - rewrite (Hfull Hout), !length_append, slice0_length. 
    change (String.length newline) with 1. lia.
Qed.

End Proposal.

(** C6, as stated, fails on an empty output: the output line is left out,
    so the proposal ends with the confidence line and not with a newline. *)
Lemma empty_output_line_is_dropped :
  output timeoutExecution = EmptyString /\
  proposalWithOutputLine governedDelegation timeoutExecution
    = buildProposal governedDelegation timeoutExecution ++ newline /\
  buildProposal governedDelegation timeoutExecution
    <> proposalWithOutputLine governedDelegation timeoutExecution.
Proof.
  split; [reflexivity|]. split; [vm_compute; reflexivity|].
  intros H. apply (f_equal String.length) in H.
  vm_compute in H. discriminate.
Qed.

(** C6 (amended) on the fixtures of the buildProposal tests: the codex
    routing decision with the code expert's outcome (confidence 0.88), and
    with an output of 5000 characters. *)
Lemma buildProposal_structure_witness :
  Contains "codex-5.3" (buildProposal codexDelegation codeExecution) /\
  Contains "confidence: 0.88" (buildProposal codexDelegation codeExecution) /\
  Contains (output codeExecution)
    (buildProposal codexDelegation codeExecution) /\
  buildProposal codexDelegation longExecution
    = proposalHead codexDelegation longExecution ++ newline
        ++ repeatChar "x"%char 2000 /\
  String.length (buildProposal codexDelegation longExecution) < 3000.
Proof.
  destruct (buildProposal_structure codexDelegation codeExecution)
    as (_ & _ & _ & _ & _ & _ & _ & _ & Hmodel & Hconf & Hout & _).
  destruct (buildProposal_structure codexDelegation longExecution)
    as (_ & Hfull & _ & _ & _ & _ & _ & _ & _ & _ & _ & Hlen).
  split; [exact Hmodel|]. split; [exact Hconf|]. split; [exact Hout|].
  split.
  - rewrite Hfull by discriminate. reflexivity.
  - eapply Nat.le_lt_trans; [exact Hlen|].
    apply Nat.ltb_lt. vm_compute. reflexivity.
Defined.

(* ========================================================================= *)
(** * Further properties of the code *)

(** ** computeAgreement: order, extremes, two-sided votes *)

Section AgreementFacts.

Lemma computeAgreement_unit_interval (rs : list StrategyResult) :
  (0 <= computeAgreement rs <= 1)%Q.
Proof.
  destruct rs as [|r rs].
  - cbn. split; discriminate.
  - rewrite computeAgreement_unfold by discriminate.
    apply Qmake_unit_interval; [discriminate|].
    apply Nat.max_lub; apply countDecision_le.
Qed.

Lemma countDecision_full (d : string) (rs : list StrategyResult) :
  countDecision d rs = List.length rs <-> Forall (fun r => decision r = d) rs.
Proof.
  induction rs as [|r rs IH].
  - split; [constructor | reflexivity].
  - rewrite countDecision_cons. cbn [List.length].
    pose proof (countDecision_le d rs) as Hle.
    destruct (string_dec (decision r) d) as [Hd | Hd]; split.
    + intros H. constructor; [exact Hd | apply IH; lia].
    + intros H. inversion H; subst. apply IH in H3. lia.
    + intros H. lia.
    + intros H. inversion H; subst. congruence.
Qed.

Lemma countDecision_none (d : string) (rs : list StrategyResult) :
  countDecision d rs = 0 <-> Forall (fun r => decision r <> d) rs.
Proof.
  induction rs as [|r rs IH].
  - split; [constructor | reflexivity].
  - rewrite countDecision_cons.
    destruct (string_dec (decision r) d) as [Hd | Hd]; split.
    + discriminate.
    + intros H. inversion H; subst. congruence.
    + intros H. constructor; [exact Hd | now apply IH].
    + intros H. inversion H; subst. now apply IH.
Qed.

Lemma Forall_conj_iff {A : Type} (P Q : A -> Prop) (l : list A) :
  Forall (fun a => P a /\ Q a) l <-> Forall P l /\ Forall Q l.
Proof.
  split.
  - intros H. split; eapply Forall_impl; try exact H; simpl; tauto.
  - intros [HP HQ]. now apply Forall_and.
Qed.

Lemma Qmake_eq_one (m n : nat) :
  n <> 0 -> ((Z.of_nat m # Pos.of_nat n == 1)%Q <-> m = n).
Proof.
  intros Hn. unfold Qeq; simpl. rewrite (Zpos_of_nat n Hn). lia.
Qed.

Lemma Qmake_eq_zero (m n : nat) :
  ((Z.of_nat m # Pos.of_nat n == 0)%Q <-> m = 0).
Proof. unfold Qeq; simpl. lia. Qed.

(** X1. The agreement does not depend on the order of the strategy
    results. *)
Theorem computeAgreement_order_irrelevant (rs rs' : list StrategyResult) :
  Permutation rs rs' -> computeAgreement rs = computeAgreement rs'.
Proof.
  intros Hp.
  destruct rs as [|r rs].
  - apply Permutation_nil in Hp. now subst.
  - assert (Hne : rs' <> []).
    { intros ->. apply Permutation_sym, Permutation_nil in Hp. discriminate. }
    rewrite !computeAgreement_unfold by (assumption || discriminate).
    assert (Hc : forall d, countDecision d (r :: rs) = countDecision d rs').
    { intros d. unfold countDecision.
      apply Permutation_count_occ, Permutation_map, Hp. }
    now rewrite !Hc, (Permutation_length Hp).
Qed.

Lemma computeAgreement_order_irrelevant_witness :
  computeAgreement
    [withDecision "approved"; withDecision "rejected"; withDecision "pending"]
  = computeAgreement
      [withDecision "pending"; withDecision "approved"; withDecision "rejected"].
Proof.
  apply computeAgreement_order_irrelevant.
  apply Permutation_sym, (Permutation_cons_append
    [withDecision "approved"; withDecision "rejected"] (withDecision "pending")).
Defined.

(** X2. On a non-empty list the agreement is 1 exactly when every entry is
    "approved" or every entry is "rejected", and 0 exactly when no entry is
    "approved" or "rejected". *)
Theorem computeAgreement_extremes (rs : list StrategyResult) :
  rs <> [] ->
  ((computeAgreement rs == 1)%Q <->
   Forall (fun r => decision r = "approved") rs \/
   Forall (fun r => decision r = "rejected") rs) /\
  ((computeAgreement rs == 0)%Q <->
   Forall (fun r => decision r <> "approved" /\ decision r <> "rejected") rs).
Proof.
  intros Hne.
  assert (Hlen : List.length rs <> 0) by (destruct rs; simpl; congruence).
  rewrite (computeAgreement_unfold rs Hne).
  pose proof (countDecision_le "approved" rs) as Ha.
  pose proof (countDecision_le "rejected" rs) as Hr.
  split.
  - rewrite (Qmake_eq_one _ _ Hlen).
    rewrite <- !countDecision_full. lia.
  - rewrite Qmake_eq_zero.
    rewrite Forall_conj_iff.
    rewrite <- !countDecision_none. lia.
Qed.

End AgreementFacts.

Section AgreementBounds.

Lemma computeAgreement_extremes_witness :
  (computeAgreement [withDecision "timeout"; withDecision "pending"] == 0)%Q /\
  ~ (computeAgreement [withDecision "approved"; withDecision "pending"] == 1)%Q.
Proof.
  split.
  - apply (computeAgreement_extremes
             [withDecision "timeout"; withDecision "pending"]);
      [discriminate|].
    repeat constructor; discriminate.
  - intros H.
    apply (computeAgreement_extremes
             [withDecision "approved"; withDecision "pending"]) in H;
      [|discriminate].
    destruct H as [H | H].
    + apply Forall_inv_tail, Forall_inv in H. discriminate.
    + apply Forall_inv in H. discriminate.
Defined.

Lemma two_sided_counts (rs : list StrategyResult) :
  Forall (fun r => decision r = "approved" \/ decision r = "rejected") rs ->
  countDecision "approved" rs + countDecision "rejected" rs = List.length rs.
Proof.
  induction 1 as [|r rs Hr _ IH]; [reflexivity|].
  rewrite !countDecision_cons. cbn [List.length].
  destruct Hr as [Hr | Hr]; rewrite Hr;
    destruct (string_dec _ "approved") as [E1 | E1];
    destruct (string_dec _ "rejected") as [E2 | E2];
    try discriminate; try congruence; lia.
Qed.

(** X3. When every entry is "approved" or "rejected" the agreement of a
    non-empty list is at least one half. *)
Theorem computeAgreement_two_sided (rs : list StrategyResult) :
  rs <> [] ->
  Forall (fun r => decision r = "approved" \/ decision r = "rejected") rs ->
  (1 # 2 <= computeAgreement rs)%Q.
Proof.
  intros Hne Hall.
  assert (Hlen : List.length rs <> 0) by (destruct rs; simpl; congruence).
  rewrite (computeAgreement_unfold rs Hne).
  pose proof (two_sided_counts rs Hall) as Hsum.
  unfold Qle; simpl. rewrite (Zpos_of_nat _ Hlen). lia.
Qed.

Lemma computeAgreement_two_sided_witness :
  (1 # 2 <= computeAgreement
              [withDecision "approved"; withDecision "rejected";
               withDecision "rejected"])%Q.
Proof.
  apply computeAgreement_two_sided; [discriminate|].
  repeat constructor; (now left) || (now right).
Defined.

End AgreementBounds.

(* ------------------------------------------------------------------------- *)
(** ** runShowdown: what every result and every run satisfies *)

Ltac step_schema H :=
  repeat match type of H with
         | obind ?x _ = Some _ =>
             let E := fresh "E" in
             destruct x eqn:E; cbn [obind] in H; [|discriminate H]
         end.

Lemma zEnum_In (values : list string) (v : option Json) (s : string) :
  zEnum values v = Some s -> In s values /\ v = Some (JStr s).
Proof.
  unfold zEnum. destruct v as [[| | |t| |]|]; try discriminate.
  destruct (existsb (String.eqb t) values) eqn:Hex; [|discriminate].
  intros H. injection H as <-. split; [|reflexivity].
  apply existsb_exists in Hex as (u & Hin & Hu).
  apply String.eqb_eq in Hu. now subst.
Qed.

Lemma VoteResponseSchema_decision (raw : Json) (v : VoteResponse) :
  VoteResponseSchema (Some raw) = Some v ->
  In (vr_decision v) ["approved"; "rejected"; "pending"; "timeout"].
Proof.
  unfold VoteResponseSchema, zObject.
  destruct raw as [| | | | |o]; try discriminate.
  intros H. step_schema H. injection H as <-. cbn [vr_decision].
  now apply zEnum_In in E1.
Qed.

Lemma successesOf_In (l : list (VotingStrategy * (Thrown + VoteResponse)))
  (sr : StrategyResult) :
  In sr (successesOf l) ->
  exists s v, In (s, inr v) l /\ sr = toStrategyResult v.
Proof.
  induction l as [|[s [e | v]] l IH]; simpl; intros H.
  - contradiction.
  - destruct (IH H) as (s' & v' & Hin & ->). eauto.
  - destruct H as [<- | H]; [eauto|].
    destruct (IH H) as (s' & v' & Hin & ->). eauto.
Qed.

Section RunFacts.

Context {G : Type}.
Variable call : G -> string -> Args -> G * (Thrown + Json).
Variable zodMessage : string -> Json -> string.

Lemma voteOutcomes_accepted (proposal : string) (todo : list VotingStrategy) :
  forall (g : G) (s : VotingStrategy) (v : VoteResponse),
    In (s, inr v) (voteOutcomes call zodMessage proposal todo g) ->
    exists raw, VoteResponseSchema (Some raw) = Some v.
Proof.
  induction todo as [|t rest IH]; intros g s v; simpl; [contradiction|].
  destruct (answer call zodMessage VoteResponseSchema (voteCall proposal t) g)
    as [g' o] eqn:Ha.
  intros [H | H]; [|exact (IH g' s v H)].
  injection H as -> ->.
  apply answer_succeeds_iff in Ha as (raw & _ & Hs). now exists raw.
Qed.

Lemma run_first_call (g : G) (config : ShowdownConfig) :
  nth_error (snd (fst (runFrom call zodMessage g config))) 0
  = Some (delegateCall config).
Proof.
  destruct (run_cases call zodMessage g config)
    as [(d & x & er & g3 & Hok) | (e & Hfail)].
  - now rewrite (run_success call zodMessage _ _ _ _ _ _ Hok).
  - destruct Hfail as [(g1 & H1) | [(g1 & d & g2 & H1 & H2)
                      | (g1 & d & g2 & x & g3 & H1 & H2 & H3)]];
      unfold runFrom, runShowdown;
      unfold bind at 1; rewrite delegateTask_run, H1; cbn [fst snd];
      [reflexivity | |];
      unfold bind at 1; rewrite createExpert_run;
      fold (requestedRole config); rewrite H2; cbn [fst snd];
      [reflexivity|].
    unfold bind at 1. rewrite executeExpert_run, H3. reflexivity.
Qed.

(** X4. In every result of a run the agreement is the agreement of the
    strategy results of that same result (failed strategies are not
    counted), so it lies between 0 and 1. *)
Theorem result_agreement_consistent (g : G) (config : ShowdownConfig)
  (st : St G) (r : ShowdownResult) :
  runFrom call zodMessage g config = (st, inr r) ->
  strategyAgreement r = computeAgreement (strategyResults r) /\
  (0 <= strategyAgreement r <= 1)%Q.
Proof.
  intros Hrun.
  destruct (run_returns call zodMessage g config st r Hrun)
    as (d & x & er & g3 & _ & -> & _).
  cbn [strategyAgreement strategyResults assembled].
  split; [reflexivity | apply computeAgreement_unit_interval].
Qed.

(** X5. The evaluation of a result repeats the task of the configuration,
    the model and the reasoning of the routing response, its alternatives
    in order with model and score, and the output and the confidence of
    the execution response; the output is kept whole, however long. *)
Theorem evaluation_mirrors_responses (g : G) (config : ShowdownConfig)
  (st : St G) (r : ShowdownResult) :
  runFrom call zodMessage g config = (st, inr r) ->
  exists d x er g3,
    StagesSucceed call zodMessage g config d x er g3 /\
    ev_task (evaluation r) = task config /\
    recommendedModel (evaluation r) = recommended_model d /\
    ev_reasoning (evaluation r) = reasoning d /\
    map as_model (ev_alternatives (evaluation r))
      = map alt_model (alternatives d) /\
    map as_score (ev_alternatives (evaluation r))
      = map alt_score (alternatives d) /\
    expertOutput (evaluation r) = output er /\
    expertConfidence (evaluation r) = confidence er.
Proof.
  intros Hrun.
  destruct (run_returns call zodMessage g config st r Hrun)
    as (d & x & er & g3 & Hok & -> & _).
  exists d, x, er, g3. split; [exact Hok|].
  cbn [evaluation assembled ev_task recommendedModel ev_reasoning
       ev_alternatives expertOutput expertConfidence].
  rewrite !map_map. cbn [as_model as_score]. repeat split.
Qed.

(** X6. Every strategy result of a run carries one of the four decisions
    "approved", "rejected", "pending", "timeout": a vote response with any
    other decision is rejected by the schema and ends up among the
    errors. *)
Theorem result_decisions_in_enum (g : G) (config : ShowdownConfig)
  (st : St G) (r : ShowdownResult) :
  runFrom call zodMessage g config = (st, inr r) ->
  Forall (fun sr => In (decision sr)
                       ["approved"; "rejected"; "pending"; "timeout"])
    (strategyResults r).
Proof.
  intros Hrun.
  destruct (run_returns call zodMessage g config st r Hrun)
    as (d & x & er & g3 & _ & -> & _).
  cbn [strategyResults assembled].
  apply Forall_forall. intros sr Hin.
  apply successesOf_In in Hin as (s & v & Hin & ->).
  apply voteOutcomes_accepted in Hin as (raw & Hraw).
  exact (VoteResponseSchema_decision raw v Hraw).
Qed.

(** X7. Whatever the gateway does, a run issues the routing call first,
    never issues more than three calls plus one per configured strategy,
    and has issued at most three calls when it throws. *)
Theorem run_calls_bounded (g : G) (config : ShowdownConfig) :
  nth_error (snd (fst (runFrom call zodMessage g config))) 0
    = Some (delegateCall config) /\
  List.length (snd (fst (runFrom call zodMessage g config)))
    <= 3 + List.length (configuredStrategies config) /\
  (forall e,
     snd (runFrom call zodMessage g config) = inl e ->
     List.length (snd (fst (runFrom call zodMessage g config))) <= 3).
Proof.
  split; [apply run_first_call|].
  destruct (run_cases call zodMessage g config)
    as [(d & x & er & g3 & Hok) | (e & Hfail)].
  - rewrite (run_success call zodMessage _ _ _ _ _ _ Hok). cbn [fst snd].
    split; [|discriminate].
    cbn [List.length]. rewrite length_map. lia.
  - destruct (run_failure call zodMessage _ _ _ Hfail)
      as (g' & issued & -> & _ & Hlen).
    cbn [fst snd]. split; [lia | intros _ _; exact Hlen].
Qed.

End RunFacts.

(** X4-X6 on the test run with the strategy-aware gateway. *)
Lemma result_agreement_consistent_witness :
  exists st r,
    runFrom strategyAwareCaller zodText tt (taskOnly "Test task")
      = (st, inr r) /\
    strategyAgreement r = computeAgreement (strategyResults r) /\
    (strategyAgreement r == 0.8)%Q.
Proof.
  assert (Hrun :
    runFrom strategyAwareCaller zodText tt (taskOnly "Test task")
    = (fst (runFrom strategyAwareCaller zodText tt (taskOnly "Test task")),
       inr (assembled strategyAwareCaller zodText (taskOnly "Test task")
              codexDelegation codeExpert codeExecution tt)))
    by (vm_compute; reflexivity).
  eexists; eexists. split; [exact Hrun|].
  split.
  - exact (proj1 (result_agreement_consistent strategyAwareCaller zodText
                    _ _ _ _ Hrun)).
  - vm_compute. reflexivity.
Defined.

Lemma evaluation_mirrors_responses_witness :
  exists st r,
    runFrom strategyAwareCaller zodText tt fullConfig = (st, inr r) /\
    ev_task (evaluation r) = "Compare TypeScript testing frameworks" /\
    recommendedModel (evaluation r) = "codex-5.3" /\
    expertOutput (evaluation r) = output codeExecution.
Proof.
  assert (Hrun :
    runFrom strategyAwareCaller zodText tt fullConfig
    = (fst (runFrom strategyAwareCaller zodText tt fullConfig),
       inr (assembled strategyAwareCaller zodText fullConfig
              codexDelegation codeExpert codeExecution tt)))
    by (vm_compute; reflexivity).
  destruct (evaluation_mirrors_responses strategyAwareCaller zodText
              _ _ _ _ Hrun) as (d & x & er & g3 & _ & Htask & _).
  eexists; eexists. split; [exact Hrun|].
  split; [exact Htask|]. split; reflexivity.
Defined.

Lemma result_decisions_in_enum_witness :
  exists st r,
    runFrom flakyCaller zodText 0 (taskOnly "Test") = (st, inr r) /\
    Forall (fun sr => In (decision sr)
                         ["approved"; "rejected"; "pending"; "timeout"])
      (strategyResults r).
Proof.
  assert (Hrun :
    runFrom flakyCaller zodText 0 (taskOnly "Test")
    = (fst (runFrom flakyCaller zodText 0 (taskOnly "Test")),
       inr (assembled flakyCaller zodText (taskOnly "Test")
              codexDelegation codeExpert codeExecution 0)))
    by (vm_compute; reflexivity).
  eexists; eexists. split; [exact Hrun|].
  exact (result_decisions_in_enum flakyCaller zodText _ _ _ _ Hrun).
Defined.

(** X7 on a gateway that knows no tool: one call, then the throw. *)
Lemma run_calls_bounded_witness :
  snd (runFrom (mockCaller []) zodText tt (taskOnly "Test"))
    = inl (JsError "Unexpected tool: delegate_to_model") /\
  List.length (snd (fst (runFrom (mockCaller []) zodText tt (taskOnly "Test"))))
    <= 3.
Proof.
  assert (H : snd (runFrom (mockCaller []) zodText tt (taskOnly "Test"))
              = inl (JsError "Unexpected tool: delegate_to_model"))
    by (vm_compute; reflexivity).
  split; [exact H|].
  exact (proj2 (proj2 (run_calls_bounded (mockCaller []) zodText tt
                         (taskOnly "Test"))) _ H).
Defined.

(* ------------------------------------------------------------------------- *)
(** ** The arguments of the four calls against the input schemas *)

Lemma inferExpertRole_range (task : string) :
  In (inferExpertRole task) EXPERT_ROLES.
Proof.
  unfold inferExpertRole, EXPERT_ROLES.
  repeat match goal with
         | |- context [if ?b then _ else _] => destruct b
         end; simpl; tauto.
Qed.

Lemma startsWith_append (p s : string) : startsWith p (p ++ s) = true.
Proof. apply startsWith_iff. now exists s. Qed.

Lemma buildProposal_first_line (d : DelegateResponse)
  (e : ExecuteExpertResponse) :
  exists rest,
    buildProposal d e
    = "Model recommendation: " ++ recommended_model d ++ newline
        ++ "Reasoning: " ++ reasoning d ++ newline ++ rest.
Proof.
  rewrite buildProposal_lines.
  unfold proposalOmittingEmpty, headLines.
  cbn [app].
  match goal with
  | |- context [join newline (?a :: ?b :: ?l)] =>
      assert (Hl : l <> [])
        by (destruct (alternatives d); cbn [app]; discriminate);
      rewrite (join_cons newline a (b :: l)) by discriminate;
      rewrite (join_cons newline b l) by exact Hl;
      exists (join newline l)
  end.
  now rewrite !append_assoc.
Qed.

Lemma buildProposal_nonempty (d : DelegateResponse)
  (e : ExecuteExpertResponse) :
  1 <= String.length (buildProposal d e).
Proof.
  destruct (buildProposal_first_line d e) as [rest ->].
  cbn [String.append String.length]. lia.
Qed.

Section CallContracts.

Context {G : Type}.
Variable call : G -> string -> Args -> G * (Thrown + Json).
Variable zodMessage : string -> Json -> string.

(** X8. The first call of every run is delegate_to_model with the task
    under key "task" and, exactly when a capability is configured, its name
    under key "preferred_capability"; DelegateInputSchema accepts these
    arguments exactly when the task is not empty. *)
Theorem delegate_arguments (g : G) (config : ShowdownConfig) :
  exists c : Call,
    nth_error (snd (fst (runFrom call zodMessage g config))) 0 = Some c /\
    fst c = "delegate_to_model" /\
    getField "task" (snd c) = Some (JStr (task config)) /\
    getField "preferred_capability" (snd c)
      = option_map (fun k => JStr (capabilityName k))
          (preferredCapability config) /\
    accepts DelegateInputSchema (snd c)
      = (1 <=? String.length (task config))%nat.
Proof.
  exists (delegateCall config).
  split; [apply run_first_call|].
  unfold delegateCall, accepts, DelegateInputSchema, zObject.
  destruct (preferredCapability config) as [[] |];
    cbn; destruct (String.length (task config)); repeat split.
Qed.

(** X9. The inferred role is always one of the nine roles of
    CreateExpertInputSchema, so when no role is configured the schema
    accepts the arguments of the creation call; a configured role is sent
    as it is and accepted exactly when it is one of the nine. *)
Theorem create_arguments (g : G) (config : ShowdownConfig) (g1 : G)
  (d : DelegateResponse) :
  answer call zodMessage DelegateResponseSchema (delegateCall config) g
    = (g1, inr d) ->
  exists role : string,
    nth_error (snd (fst (runFrom call zodMessage g config))) 1
      = Some ("create_expert", [("role", JStr role)]) /\
    accepts CreateExpertInputSchema [("role", JStr role)]
      = existsb (String.eqb role) EXPERT_ROLES /\
    (cfg_expertRole config = None ->
     In role EXPERT_ROLES /\
     accepts CreateExpertInputSchema [("role", JStr role)] = true).
Proof.
  intros H1. exists (requestedRole config).
  split; [exact (create_call_role call zodMessage g config g1 d H1)|].
  assert (Hacc : forall role,
             accepts CreateExpertInputSchema [("role", JStr role)]
             = existsb (String.eqb role) EXPERT_ROLES).
  { intros role. unfold accepts, CreateExpertInputSchema, zObject.
    cbn [getField String.eqb Ascii.eqb Bool.eqb andb zEnum obind].
    destruct (existsb (String.eqb role) EXPERT_ROLES); reflexivity. }
  split; [apply Hacc|].
  intros Hnone. unfold requestedRole. rewrite Hnone.
  pose proof (inferExpertRole_range (task config)) as Hin.
  split; [exact Hin|].
  rewrite Hacc. apply existsb_exists.
  exists (inferExpertRole (task config)).
  split; [exact Hin | apply String.eqb_refl].
Qed.

(** X10. The third call of a run is execute_expert for the expert id of
    the creation response, with a prompt that contains the task, the
    recommended model and the routing reasoning; ExecuteExpertInputSchema
    accepts these arguments exactly when that expert id is not empty. *)
Theorem execute_arguments (g : G) (config : ShowdownConfig)
  (d : DelegateResponse) (x : CreateExpertResponse)
  (er : ExecuteExpertResponse) (g3 : G) :
  StagesSucceed call zodMessage g config d x er g3 ->
  exists prompt : string,
    nth_error (snd (fst (runFrom call zodMessage g config))) 2
      = Some ("execute_expert",
              [("expertId", JStr (ce_expertId x)); ("task", JStr prompt)]) /\
    Contains (task config) prompt /\
    Contains (recommended_model d) prompt /\
    Contains (reasoning d) prompt /\
    accepts ExecuteExpertInputSchema
      [("expertId", JStr (ce_expertId x)); ("task", JStr prompt)]
      = (1 <=? String.length (ce_expertId x))%nat.
Proof.
  intros Hok. exists (expertTaskText config d).
  rewrite (run_success call zodMessage _ _ _ _ _ _ Hok).
  split; [reflexivity|].
  unfold expertTaskText.
  split; [|split; [|split]].
  - do 2 apply Contains_append_r. apply Contains_append_l, Contains_refl.
  - do 7 apply Contains_append_r. apply Contains_append_l, Contains_refl.
  - do 10 apply Contains_append_r. apply Contains_refl.
  - unfold accepts, ExecuteExpertInputSchema, zObject.
    cbn. destruct (String.length (ce_expertId x)); reflexivity.
Qed.

(** X11. Every voting call of a run carries the one proposal and a
    strategy name of VoteInputSchema's enumeration; the proposal is never
    empty, so VoteInputSchema accepts the arguments exactly when the
    proposal has at most 4000 characters, which holds whenever the lines
    before the output have at most 1999. *)
Theorem vote_arguments (g : G) (config : ShowdownConfig)
  (d : DelegateResponse) (x : CreateExpertResponse)
  (er : ExecuteExpertResponse) (g3 : G) :
  StagesSucceed call zodMessage g config d x er g3 ->
  1 <= String.length (buildProposal d er) /\
  (forall c : Call,
     In c (skipn 3 (snd (fst (runFrom call zodMessage g config)))) ->
     getField "proposal" (snd c) = Some (JStr (buildProposal d er)) /\
     accepts VoteInputSchema (snd c)
       = (String.length (buildProposal d er) <=? 4000)%nat) /\
  (String.length (proposalHead d er) <= 1999 ->
   String.length (buildProposal d er) <= 4000).
Proof.
  intros Hok.
  pose proof (buildProposal_nonempty d er) as Hne.
  split; [exact Hne|]. split.
  - rewrite (run_success call zodMessage _ _ _ _ _ _ Hok).
    cbn [fst snd skipn]. intros c Hc.
    apply in_map_iff in Hc as (s & <- & _).
    split; [reflexivity|].
    unfold accepts, VoteInputSchema, zObject, voteCall.
    cbn [snd getField String.eqb Ascii.eqb Bool.eqb andb obind
         zStringMinMax zOptional option_map].
    destruct (String.length (buildProposal d er)) as [|n] eqn:Hlen; [lia|].
    cbn [Nat.leb andb].
    destruct (n <=? 3999)%nat eqn:Hle.
    + destruct s; reflexivity.
    + reflexivity.
  - intros Hhead.
    destruct (string_dec (output er) EmptyString) as [Hout | Hout].
    + rewrite buildProposal_lines. unfold proposalOmittingEmpty.
      rewrite Hout, app_nil_r. fold (proposalHead d er). lia.
    + rewrite buildProposal_lines. unfold proposalOmittingEmpty.
      destruct (output er) as [|ch out] eqn:Ho; [congruence|].
      rewrite join_snoc by apply headLines_nonempty.
      fold (proposalHead d er).
      rewrite !length_append, slice0_length.
      change (String.length newline) with 1. lia.
Qed.

End CallContracts.

(** X9 on the test run "infers expert role from task". *)
Lemma create_arguments_witness :
  exists role,
    nth_error
      (snd (fst (runFrom strategyAwareCaller zodText tt
                   (taskOnly "Security audit of auth module")))) 1
      = Some ("create_expert", [("role", JStr role)]) /\
    accepts CreateExpertInputSchema [("role", JStr role)] = true.
Proof.
  destruct (create_arguments strategyAwareCaller zodText tt
              (taskOnly "Security audit of auth module") tt codexDelegation)
    as (role & Hcall & _ & Hnone).
  - vm_compute. reflexivity.
  - exists role. split; [exact Hcall|]. now apply Hnone.
Defined.

(** X10 and X11 on the test run "chains all 4 tools across 5
    strategies". *)
Lemma execute_arguments_witness :
  exists prompt,
    nth_error (snd (fst (runFrom strategyAwareCaller zodText tt fullConfig))) 2
      = Some ("execute_expert",
              [("expertId", JStr "code-expert"); ("task", JStr prompt)]) /\
    Contains "Compare TypeScript testing frameworks" prompt /\
    accepts ExecuteExpertInputSchema
      [("expertId", JStr "code-expert"); ("task", JStr prompt)] = true.
Proof.
  destruct (execute_arguments strategyAwareCaller zodText tt fullConfig
              codexDelegation codeExpert codeExecution tt)
    as (prompt & Hcall & Htask & _ & _ & Hacc).
  - exists tt, tt. split; [|split]; vm_compute; reflexivity.
  - exists prompt. split; [exact Hcall|]. split; [exact Htask|].
    exact Hacc.
Defined.

Lemma vote_arguments_witness :
  Forall (fun c => accepts VoteInputSchema (snd c) = true)
    (skipn 3 (snd (fst (runFrom strategyAwareCaller zodText tt fullConfig)))).
Proof.
  destruct (vote_arguments strategyAwareCaller zodText tt fullConfig
              codexDelegation codeExpert codeExecution tt)
    as (_ & Hcalls & _).
  - exists tt, tt. split; [|split]; vm_compute; reflexivity.
  - apply Forall_forall. intros c Hc.
    destruct (Hcalls c Hc) as [_ ->]. vm_compute. reflexivity.
Defined.

(* ------------------------------------------------------------------------- *)
(** ** buildProposal: what the proposal depends on *)

(** X12. The proposal always opens with the model line and the reasoning
    line, and it depends on the execution outcome only through the
    confidence and the first 2000 characters of the output: what lies
    beyond them, the expert id and the token count change nothing. *)
Theorem buildProposal_dependencies (d : DelegateResponse)
  (e e' : ExecuteExpertResponse) :
  confidence e = confidence e' ->
  slice0 2000 (output e) = slice0 2000 (output e') ->
  buildProposal d e = buildProposal d e' /\
  exists rest,
    buildProposal d e
    = "Model recommendation: " ++ recommended_model d ++ newline
        ++ "Reasoning: " ++ reasoning d ++ newline ++ rest.
Proof.
  intros Hc Ho. split; [|apply buildProposal_first_line].
  unfold buildProposal. now rewrite Hc, Ho.
Qed.

Lemma buildProposal_dependencies_witness :
  buildProposal codexDelegation longExecution
  = buildProposal codexDelegation
      {| ee_expertId := "other-expert";
         output := repeatChar "x"%char 2000 ++ "tail";
         confidence := confidence codeExecution;
         tokensUsed := Zero |}.
Proof.
  apply buildProposal_dependencies; vm_compute; reflexivity.
Defined.

(* ------------------------------------------------------------------------- *)
(** ** The response schemas on encoded values *)

Section SchemaRoundTrip.

Import Encode.




End SchemaRoundTrip.


(* ------------------------------------------------------------------------- *)
(** ** The reports *)

Section ReportFacts.

Variable percentOfNumber : number -> string.
Variable percentOfRatio : Q -> string.
Variable emDash : string.
Variable stringify : ShowdownResult -> string.

Local Notation linesOfText := (textLines percentOfNumber percentOfRatio).
Local Notation textReport := (formatText percentOfNumber percentOfRatio).
Local Notation linesOfMarkdown :=
  (markdownLines percentOfNumber percentOfRatio emDash).
Local Notation markdownReport :=
  (formatMarkdown percentOfNumber percentOfRatio emDash).
Local Notation report :=
  (generateReport percentOfNumber percentOfRatio emDash stringify).

Lemma nonempty_length {A : Type} (l : list A) (a : A) :
  In a l -> (0 <? List.length l)%nat = true.
Proof. destruct l; [contradiction | reflexivity]. Qed.

Lemma text_error_line (r : ShowdownResult) (e : string) :
  In e (errors r) ->
  In "Errors:" (linesOfText r) /\ In ("  - " ++ e) (linesOfText r).
Proof.
  intros Hin. unfold textLines.
  rewrite (nonempty_length _ _ Hin).
  split; repeat (apply in_or_app; right).
  - right. now left.
  - right. right. apply in_map_iff. now exists e.
Qed.

Lemma markdown_error_line (r : ShowdownResult) (e : string) :
  In e (errors r) ->
  In "## Errors" (linesOfMarkdown r) /\ In ("- " ++ e) (linesOfMarkdown r).
Proof.
  intros Hin. unfold markdownLines.
  rewrite (nonempty_length _ _ Hin).
  split; repeat (apply in_or_app; right).
  - right. now left.
  - do 3 right. apply in_map_iff. now exists e.
Qed.

Lemma line_in_report (line part : string) (lines : list string) :
  In line lines -> Contains part line -> Contains part (join newline lines).
Proof.
  intros Hin Hpart. eapply Contains_trans; [exact Hpart|].
  now apply Contains_join.
Qed.







End ReportFacts.

Section RunThenReport.

Context {G : Type}.
Variable call : G -> string -> Args -> G * (Thrown + Json).
Variable zodMessage : string -> Json -> string.
Variable percentOfNumber : number -> string.
Variable percentOfRatio : Q -> string.
Variable emDash : string.
Variable stringify : ShowdownResult -> string.

(** X16. A voting failure of a run shows in its reports: for every
    strategy [s] whose call failed with [e], the text report and the
    markdown report (also as the default format) of the result contain
    "<s> vote failed: <message of e>". *)
Theorem failed_votes_are_reported (g : G) (config : ShowdownConfig)
  (d : DelegateResponse) (x : CreateExpertResponse)
  (er : ExecuteExpertResponse) (g3 : G) (s : VotingStrategy) (e : Thrown) :
  StagesSucceed call zodMessage g config d x er g3 ->
  In (s, inl e)
     (voteOutcomes call zodMessage (buildProposal d er)
        (configuredStrategies config) g3) ->
  exists (st : St G) (r : ShowdownResult),
    runFrom call zodMessage g config = (st, inr r) /\
    forall format : option ReportFormat,
      format <> Some json ->
      Contains (strategyName s ++ " vote failed: " ++ thrownMessage e)
        (generateReport percentOfNumber percentOfRatio emDash stringify
           r format).
Proof.
  intros Hok Hin.
  eexists; eexists.
  split; [exact (run_success call zodMessage _ _ _ _ _ _ Hok)|].
  intros format Hformat.
  apply failure_recorded in Hin.
  change (failuresOf _) with
    (errors (assembled call zodMessage config d x er g3)) in Hin.
  set (r := assembled call zodMessage config d x er g3) in *.
  set (msg := strategyName s ++ " vote failed: " ++ thrownMessage e) in *.
  assert (Hmd : Contains msg
                  (formatMarkdown percentOfNumber percentOfRatio emDash r)).
  { destruct (markdown_error_line percentOfNumber percentOfRatio emDash
                r msg Hin) as [_ Hline].
    apply (line_in_report ("- " ++ msg)); [exact Hline|].
    apply Contains_append_r, Contains_refl. }
  destruct format as [[| |]|]; try exact Hmd; [congruence|].
  destruct (text_error_line percentOfNumber percentOfRatio r msg Hin)
    as [_ Hline].
  apply (line_in_report ("  - " ++ msg)); [exact Hline|].
  apply Contains_append_r, Contains_refl.
Qed.

End RunThenReport.


(** X16 on the test run whose third vote throws. *)
Lemma failed_votes_are_reported_witness :
  exists st r,
    runFrom flakyCaller zodText 0 (taskOnly "Test") = (st, inr r) /\
    Contains "unanimous vote failed: vote timeout"
      (generateReport fixturePercentOfNumber fixturePercentOfRatio
         fixtureEmDash fixtureStringify r (Some text)) /\
    Contains "unanimous vote failed: vote timeout"
      (generateReport fixturePercentOfNumber fixturePercentOfRatio
         fixtureEmDash fixtureStringify r None).
Proof.
  destruct (failed_votes_are_reported flakyCaller zodText
              fixturePercentOfNumber fixturePercentOfRatio fixtureEmDash
              fixtureStringify 0 (taskOnly "Test") codexDelegation codeExpert
              codeExecution 0 unanimous (JsError "vote timeout"))
    as (st & r & Hrun & Hrep).
  - exists 0, 0. split; [|split]; vm_compute; reflexivity.
  - vm_compute. right; right; left. reflexivity.
  - exists st, r. split; [exact Hrun|].
    split; apply Hrep; discriminate.
Defined.

(* ------------------------------------------------------------------------- *)
(** ** The four step functions *)

Section Steps.

Context {G : Type}.
Variable call : G -> string -> Args -> G * (Thrown + Json).
Variable zodMessage : string -> Json -> string.

(** X17. Each of delegateTask, createExpert, executeExpert and
    voteWithStrategy issues exactly one gateway call, whether it returns or
    throws; it throws what the gateway threw, unchanged, and when the
    gateway returned data the schema rejects it throws the validation
    error of that data. *)
Theorem steps_issue_one_call (g : G) (issued : list Call) :
  (forall task capability,
     exists c,
       snd (fst (delegateTask call zodMessage task capability (g, issued)))
       = (issued ++ [c])%list /\ fst c = "delegate_to_model") /\
  (forall role,
     snd (fst (createExpert call zodMessage role (g, issued)))
     = (issued ++ [("create_expert", [("role", JStr role)])])%list) /\
  (forall expertId task,
     snd (fst (executeExpert call zodMessage expertId task (g, issued)))
     = (issued ++ [("execute_expert",
                    [("expertId", JStr expertId); ("task", JStr task)])])
       %list) /\
  (forall proposal s,
     snd (fst (voteWithStrategy call zodMessage proposal s (g, issued)))
     = (issued ++ [("consensus_vote",
                    [("proposal", JStr proposal);
                     ("strategy", JStr (strategyName s))])])%list) /\
  (forall proposal s g' e,
     call g "consensus_vote"
       [("proposal", JStr proposal); ("strategy", JStr (strategyName s))]
       = (g', inl e) ->
     snd (voteWithStrategy call zodMessage proposal s (g, issued)) = inl e) /\
  (forall proposal s g' raw,
     call g "consensus_vote"
       [("proposal", JStr proposal); ("strategy", JStr (strategyName s))]
       = (g', inr raw) ->
     VoteResponseSchema (Some raw) = None ->
     snd (voteWithStrategy call zodMessage proposal s (g, issued))
     = inl (JsError (zodMessage "consensus_vote" raw))).
Proof.
  split; [|split; [|split; [|split; [|split]]]].
  - intros task capability. unfold delegateTask.
    rewrite call_then_parse. cbn [fst snd]. eexists. split; reflexivity.
  - intros role. now rewrite createExpert_run.
  - intros expertId task. now rewrite executeExpert_run.
  - intros proposal s. now rewrite voteWithStrategy_run.
  - intros proposal s g' e Hcall. rewrite voteWithStrategy_run. cbn [snd].
    unfold answer, validated, voteCall. cbn [fst snd]. now rewrite Hcall.
  - intros proposal s g' raw Hcall Hrej. rewrite voteWithStrategy_run.
    cbn [snd]. unfold answer, validated, voteCall. cbn [fst snd].
    now rewrite Hcall, Hrej.
Qed.

End Steps.

(** X17 on a gateway without a vote response, and on one whose vote
    response is not an object. *)
Lemma steps_issue_one_call_witness :
  snd (voteWithStrategy (mockCaller noVoteResponses) zodText "p" unanimous
         (tt, []))
    = inl (JsError "Unexpected tool: consensus_vote") /\
  snd (voteWithStrategy (mockCaller [("consensus_vote", JNull)]) zodText
         "p" unanimous (tt, []))
    = inl (JsError "invalid consensus_vote response").
Proof.
  destruct (steps_issue_one_call (mockCaller noVoteResponses) zodText tt [])
    as (_ & _ & _ & _ & Hthrow & _).
  destruct (steps_issue_one_call (mockCaller [("consensus_vote", JNull)])
              zodText tt [])
    as (_ & _ & _ & _ & _ & Hreject).
  split.
  - apply (Hthrow "p" unanimous tt). reflexivity.
  - apply (Hreject "p" unanimous tt JNull); reflexivity.
Defined.

(* ------------------------------------------------------------------------- *)
(** ** The markdown report *)

Section MarkdownFacts.

Variable percentOfNumber : number -> string.
Variable percentOfRatio : Q -> string.
Variable emDash : string.

Local Notation linesOfMarkdown :=
  (markdownLines percentOfNumber percentOfRatio emDash).
Local Notation markdownReport :=
  (formatMarkdown percentOfNumber percentOfRatio emDash).



End MarkdownFacts.

